(** * robusta_krr.core.integrations.prometheus

    A shallow embedding of [PrometheusLoader]: construction of the loader
    (URL resolution, authentication headers, liveness check) and
    [gather_data], the concurrent per-pod range queries and the reshaping
    of their results into a pod -> samples dictionary. *)

From Stdlib Require Import List String Ascii ZArith QArith Qround Lia Bool Arith.
From Stdlib Require Import DecimalString.
Import ListNotations.

Local Open Scope string_scope.
Local Open Scope list_scope.

(** ** Python values shared by the whole module *)

(** The double quote character of the f-strings that build the queries. *)
Definition dquote : string := String (ascii_of_nat 34) EmptyString.

(** The line feed of the liveness failure message. *)
Definition newline : string := String (ascii_of_nat 10) EmptyString.

(** [str(n)] for a Python [int]. *)
Definition str_int (n : Z) : string := NilZero.string_of_int (Z.to_int n).

(** Truthiness of an [Optional[str]]: [None] and the empty string are falsy. *)
Definition truthy (s : option string) : bool :=
  match s with
  | None => false
  | Some EmptyString => false
  | Some (String _ _) => true
  end.

(** [a or b] on two [Optional[str]] values. *)
Definition py_or (a b : option string) : option string :=
  if truthy a then a else b.

(** The exceptions that can travel through this module.  [ConnectionError],
    [HTTPError] and [ReadTimeout] are the [requests.exceptions] classes
    ([ReadTimeout] is not a subclass of [ConnectionError]);
    [PrometheusApiClientException] is what [custom_query_range] raises on a
    status other than 200; [InvalidOperation] is raised by [Decimal] on a
    string that is not a number; [ConfigException] is what
    [kubernetes.config] raises for a context it cannot load.
    [PrometheusNotFound] is the class declared in the module; its second
    field is [__cause__], set by [raise ... from e]. *)
#[warnings="-register-all"]
Inductive exn : Type :=
| ValueError (msg : string)
| AttributeError (msg : string)
| IndexError (msg : string)
| InvalidOperation (msg : string)
| ConnectionError (msg : string)
| HTTPError (msg : string)
| ReadTimeout (msg : string)
| PrometheusApiClientException (msg : string)
| ConfigException (msg : string)
| PrometheusNotFound (msg : string) (cause : option exn).

(** [e.__class__.__name__] *)
Definition class_name (e : exn) : string :=
  match e with
  | ValueError _ => "ValueError"
  | AttributeError _ => "AttributeError"
  | IndexError _ => "IndexError"
  | InvalidOperation _ => "InvalidOperation"
  | ConnectionError _ => "ConnectionError"
  | HTTPError _ => "HTTPError"
  | ReadTimeout _ => "ReadTimeout"
  | PrometheusApiClientException _ => "PrometheusApiClientException"
  | ConfigException _ => "ConfigException"
  | PrometheusNotFound _ _ => "PrometheusNotFound"
  end.

(** [str(e)] *)
Definition str_exn (e : exn) : string :=
  match e with
  | ValueError m | AttributeError m | IndexError m | InvalidOperation m
  | ConnectionError m | HTTPError m | ReadTimeout m
  | PrometheusApiClientException m | ConfigException m
  | PrometheusNotFound m _ => m
  end.

(** [__cause__] *)
Definition cause_of (e : exn) : option exn :=
  match e with
  | PrometheusNotFound _ c => c
  | _ => None
  end.

(** [isinstance(e, PrometheusNotFound)] *)
Definition is_PrometheusNotFound (e : exn) : bool :=
  match e with PrometheusNotFound _ _ => true | _ => false end.

(** ** [datetime.timedelta] and the step of a range query *)

Module Timedelta.

(** A [timedelta] is an exact count of microseconds, of either sign. *)
Definition timedelta : Type := Z.

Definition of_seconds (s : Z) : timedelta := (s * 1000000)%Z.
Definition of_minutes (m : Z) : timedelta := (m * 60000000)%Z.
Definition of_days (d : Z) : timedelta := (d * 86400000000)%Z.

(** [td.total_seconds()]: the microsecond count over [10**6].  Python
    returns the nearest double; the quotient below is the exact one, and
    the two have the same integer part while the count stays under
    [2^53] microseconds in magnitude ([representable]). *)
Definition total_seconds (td : timedelta) : Q := inject_Z td / inject_Z 1000000.

Definition representable (td : timedelta) : Prop := (Z.abs td < 2 ^ 53)%Z.

(** [int(x)] on a float truncates toward zero. *)
Definition int_of_float (x : Q) : Z :=
  if Qle_bool 0 x then Qfloor x else Qceiling x.

(** [f"{int(timeframe.total_seconds()) // 60}m"]; [//] is floor division. *)
Definition step_of (timeframe : timedelta) : string :=
  str_int (int_of_float (total_seconds timeframe) / 60) ++ "m".

(** The default of the [timeframe] keyword argument. *)
Definition default_timeframe : timedelta := of_minutes 30.

End Timedelta.

(** ** Python dictionaries

    A [dict] keeps its keys in insertion order, and assigning to a key that
    is already present replaces the value where the key stands.  The result
    dictionaries are keyed by pod name. *)

Module Dict.

Definition dict (V : Type) : Type := list (string * V).

Section Operations.
Context {V : Type}.

Definition empty : dict V := [].

(** [d[k]], [None] standing for [KeyError]. *)
Fixpoint get (d : dict V) (k : string) : option V :=
  match d with
  | [] => None
  | (k', v) :: rest => if String.eqb k' k then Some v else get rest k
  end.

(** [d[k] = v] *)
Fixpoint set (d : dict V) (k : string) (v : V) : dict V :=
  match d with
  | [] => [(k, v)]
  | (k', v') :: rest =>
      if String.eqb k' k then (k', v) :: rest else (k', v') :: set rest k v
  end.

Definition keys (d : dict V) : list string := map fst d.

(** [d.items()] *)
Definition items (d : dict V) : list (string * V) := d.

(** [{k: v for k in ks}] with a value that does not depend on the key. *)
Definition from_keys (ks : list string) (v : V) : dict V :=
  fold_left (fun d k => set d k v) ks empty.

End Operations.

End Dict.

Import Dict.

(** ** Data model *)

(** [K8sObjectData], as far as this module reads it. *)
Record K8sObjectData : Type := {
  namespace : string;
  container : string;
  pods : list string
}.

(** [ResourceType] is an enumeration with the members [CPU] and [Memory].
    [gather_data] compares its argument with both and has a third branch;
    [Unsupported] stands for any argument equal to neither, and carries its
    [str()]. *)
Inductive ResourceType : Type :=
| CPU
| Memory
| Unsupported (shown : string).

(** The configuration fields read by the loader. *)
Record Config : Type := {
  prometheus_url : option string;
  prometheus_auth_header : option string;
  prometheus_ssl_enabled : bool;
  inside_cluster : bool
}.

(** One series of a range query result: its labels and its
    [[timestamp, value]] pairs; the value is the string of the JSON body. *)
Record series : Type := {
  metric : list (string * string);
  values : list (Q * string)
}.

(** The keyword arguments of one [custom_query_range] call; times are in
    microseconds since the epoch. *)
Record range_request : Type := {
  query : string;
  start_time : Z;
  end_time : Z;
  step : string
}.

(** The arguments of the [session.get] call of the liveness check. *)
Record get_request : Type := {
  get_url : string;
  get_verify : bool;
  get_headers : dict string;
  get_params : dict string
}.

(** A response, as far as the liveness check reads it; [response_url] is
    the URL the request was sent to, with its query string. *)
Record response : Type := {
  status_code : Z;
  reason : string;
  response_url : string
}.

(** [CustomPrometheusConnect]: the fields set by the parent constructor and
    the pooled adapter mounted on the session. *)
Record CustomPrometheusConnect : Type := {
  url : string;
  headers : dict string;
  ssl_verification : bool;
  pool_maxsize : Z;
  pool_block : bool
}.

(** What one task of [asyncio.gather] ends with, and when: the tasks run in
    worker threads, and the first exception raised, in time, is the one
    [gather] propagates. *)
Record completion : Type := {
  finished_at : nat;
  outcome : exn + list series
}.

(** ** Effects

    The observable actions, in the order they happen, and the two counters
    that index the answers of the outside world: how many times the clock
    was read and how many range queries were submitted. *)

Inductive event : Type :=
| FindUrl (selectors : list string)
| NewSession (mounted_at : string)
| SessionGet (r : get_request)
| QueryRange (r : range_request)
| ToDecimal (s : string).

Record world : Type := {
  clock_reads : nat;
  submitted : nat;
  trace : list event
}.

Definition initial_world : world :=
  {| clock_reads := 0; submitted := 0; trace := [] |}.

Definition log (ev : event) (w : world) : world :=
  {| clock_reads := clock_reads w; submitted := submitted w;
     trace := trace w ++ [ev] |}.

(** A computation either raises or returns, and leaves a world behind. *)
Definition M (A : Type) : Type := world -> (exn + A) * world.

Definition ret {A : Type} (a : A) : M A := fun w => (inr a, w).

Definition raise {A : Type} (e : exn) : M A := fun w => (inl e, w).

Definition bind {A B : Type} (m : M A) (k : A -> M B) : M B :=
  fun w =>
    match m w with
    | (inl e, w') => (inl e, w')
    | (inr a, w') => k a w'
    end.

Notation "x <- m ;; k" := (bind m (fun x => k))
  (at level 100, m at next level, right associativity).
Notation "m ;;; k" := (bind m (fun _ => k))
  (at level 100, right associativity).

Definition emit (ev : event) : M unit := fun w => (inr tt, log ev w).

(** [[f(x) for x in xs]], left to right, stopping at the first exception. *)
Fixpoint mapM {A B : Type} (f : A -> M B) (xs : list A) : M (list B) :=
  match xs with
  | [] => ret []
  | x :: rest => y <- f x ;; ys <- mapM f rest ;; ret (y :: ys)
  end.

(** A loop that carries an accumulator. *)
Fixpoint foldM {A B : Type} (f : A -> B -> M A) (xs : list B) (acc : A) : M A :=
  match xs with
  | [] => ret acc
  | x :: rest => acc' <- f acc x ;; foldM f rest acc'
  end.

(** What the caller sees. *)
Definition result_of {A : Type} (r : (exn + A) * world) : exn + A := fst r.
Definition events_of {A : Type} (r : (exn + A) * world) : list event := trace (snd r).

Definition is_range_query (ev : event) : bool :=
  match ev with QueryRange _ => true | _ => false end.

Definition is_session_event (ev : event) : bool :=
  match ev with NewSession _ | SessionGet _ => true | _ => false end.

Definition is_conversion (ev : event) : bool :=
  match ev with ToDecimal _ => true | _ => false end.

(** The range queries of a run, as they were handed to the worker threads. *)
Definition range_queries (evs : list event) : list range_request :=
  flat_map (fun ev => match ev with QueryRange r => [r] | _ => [] end) evs.

(** ** The loader *)

(** [PrometheusLoader], the fields [__init__] sets. *)
Record PrometheusLoader (ApiClient : Type) : Type := {
  auth_header : option string;
  ssl_enabled : bool;
  api_client : option ApiClient;
  loader_url : string;
  prometheus : CustomPrometheusConnect
}.

Arguments auth_header {ApiClient} _.
Arguments ssl_enabled {ApiClient} _.
Arguments api_client {ApiClient} _.
Arguments loader_url {ApiClient} _.
Arguments prometheus {ApiClient} _.

(** [PrometheusDiscovery.find_prometheus_url] passes this list to
    [find_url]; the other selectors are commented out in the source. *)
Definition selectors : list string :=
  ["app=prometheus-operator-prometheus,release=prometheus"].

(** [cluster or 'default'] *)
Definition cluster_or_default (cluster : option string) : string :=
  match py_or cluster (Some "default") with
  | Some s => s
  | None => "default"
  end.

(** [Response.raise_for_status]: [HTTPError] for a status from 400 to 599,
    nothing otherwise. *)
Definition status_error (r : response) (kind : string) : exn :=
  HTTPError (str_int (status_code r) ++ " " ++ kind ++ " Error: " ++ reason r
               ++ " for url: " ++ response_url r).

Definition raise_for_status (r : response) : M unit :=
  if ((400 <=? status_code r) && (status_code r <? 500))%Z then
    raise (status_error r "Client")
  else if ((500 <=? status_code r) && (status_code r <? 600))%Z then
    raise (status_error r "Server")
  else ret tt.

(** [Response.ok] *)
Definition ok (r : response) : bool :=
  negb ((400 <=? status_code r) && (status_code r <? 600))%Z.

(** [except (ConnectionError, HTTPError)] *)
Definition caught (e : exn) : bool :=
  match e with
  | ConnectionError _ | HTTPError _ => true
  | _ => false
  end.

(** [try: body except (ConnectionError, HTTPError) as e: handler(e)] *)
Definition try_except {A : Type} (body : M A) (handler : exn -> M A) : M A :=
  fun w =>
    match body w with
    | (inl e, w') => if caught e then handler e w' else (inl e, w')
    | (inr a, w') => (inr a, w')
    end.

Section Loader.

(** The collaborators of the constructor: the Kubernetes client library,
    the service discovery of [robusta_krr.utils.service_discovery] and
    the HTTP transport behind the session. *)
Variable ApiClient : Type.
Variable new_client_from_config : string -> exn + ApiClient.
Variable find_url : list string -> option ApiClient -> option string.
Variable update_params_for_auth :
  ApiClient -> dict string -> dict string -> list string -> dict string.
Variable transport_get : get_request -> exn + response.

(** Line 72: the API client of the named cluster, [None] without a name;
    a context that cannot be loaded raises. *)
Definition api_client_for (cluster : option string) : M (option ApiClient) :=
  match cluster with
  | Some context =>
      match new_client_from_config context with
      | inl e => raise e
      | inr api => ret (Some api)
      end
  | None => ret None
  end.

Definition find_prometheus_url (client : option ApiClient) : M (option string) :=
  emit (FindUrl selectors) ;;; ret (find_url selectors client).

(** The constructor of [CustomPrometheusConnect] as the loader calls it:
    the parent constructor, on line 53, sets [url], [headers] and
    [ssl_verification] and mounts a session of its own at the URL; lines
    54 and 55 then replace it by a new session, mounted at the same URL
    with a blocking pool of ten. *)
Definition CustomPrometheusConnect_init
    (u : string) (hdrs : dict string) (disable_ssl : bool)
  : M CustomPrometheusConnect :=
  emit (NewSession u) ;;;
  emit (NewSession u) ;;;
  ret {| url := u; headers := hdrs; ssl_verification := negb disable_ssl;
         pool_maxsize := 10; pool_block := true |}.

(** [session.get(...)] *)
Definition session_get (r : get_request) : M response :=
  fun w =>
    match transport_get r with
    | inl e => (inl e, log (SessionGet r) w)
    | inr resp => (inr resp, log (SessionGet r) w)
    end.

Definition _check_prometheus_connection (p : CustomPrometheusConnect) : M unit :=
  try_except
    (response <- session_get
                   {| get_url := url p ++ "/api/v1/query";
                      get_verify := ssl_verification p;
                      get_headers := headers p;
                      get_params := [("query", "example")] |} ;;
     raise_for_status response)
    (fun e =>
       raise (PrometheusNotFound
                ("Couldn't connect to Prometheus found under " ++ url p
                   ++ newline ++ "Caused by " ++ class_name e ++ ": "
                   ++ str_exn e ++ ")")
                (Some e))).

(** The URL of lines 75 and 76: the configured one, or else discovery. *)
Definition resolve_url (config : Config) (client : option ApiClient)
  : M (option string) :=
  if truthy (prometheus_url config) then ret (prometheus_url config)
  else find_prometheus_url client.

(** The authentication headers of lines 83 to 88.  Outside the cluster
    and without a configured header the method is looked up on
    [self.api_client], which is [None] when no cluster was named; the
    method fills the [headers] dictionary it is given, and the result
    below is that dictionary after the call. *)
Definition auth_headers (config : Config) (client : option ApiClient)
  : M (dict string) :=
  match prometheus_auth_header config with
  | Some (String c s) => ret [("Authorization", String c s)]
  | _ =>
      if negb (inside_cluster config) then
        match client with
        | Some api => ret (update_params_for_auth api [] [] ["BearerToken"])
        | None =>
            raise (AttributeError
                     "'NoneType' object has no attribute 'update_params_for_auth'")
        end
      else ret []
  end.

(** The constructor.  The two [self.debug] lines only write to the log
    and are left out. *)
Definition __init__ (config : Config) (cluster : option string)
  : M (PrometheusLoader ApiClient) :=
  client <- api_client_for cluster ;;
  found <- resolve_url config client ;;
  match found with
  | Some (String c s) =>
      hdrs <- auth_headers config client ;;
      p <- CustomPrometheusConnect_init (String c s) hdrs
             (negb (prometheus_ssl_enabled config)) ;;
      _check_prometheus_connection p ;;;
      ret {| auth_header := prometheus_auth_header config;
             ssl_enabled := prometheus_ssl_enabled config;
             api_client := client;
             loader_url := String c s;
             prometheus := p |}
  | _ =>
      raise (PrometheusNotFound
               ("Prometheus url could not be found while scanning in "
                  ++ cluster_or_default cluster ++ " cluster")
               None)
  end.

End Loader.

(** ** The queries *)

Definition quoted (s : string) : string := dquote ++ s ++ dquote.

Definition cpu_query (object : K8sObjectData) (pod : string) : string :=
  "sum(namespace_pod_name_container_name:container_cpu_usage_seconds_total:sum_rate{container_name="
    ++ quoted (container object) ++ ", namespace=" ++ quoted (namespace object)
    ++ ", pod_name=" ++ quoted pod ++ "})".

Definition memory_query (object : K8sObjectData) (pod : string) : string :=
  "sum(container_memory_working_set_bytes{job=" ++ quoted "kubelet"
    ++ ", metrics_path=" ++ quoted "/metrics/cadvisor"
    ++ ", image!=" ++ quoted EmptyString
    ++ ", namespace=" ++ quoted (namespace object)
    ++ ", pod_name=" ++ quoted pod
    ++ ", container_name=" ++ quoted (container object) ++ "})".

(** ** [asyncio.gather] *)

(** The exception [gather] propagates: the one raised first, in time;
    between two raised at the same instant, the one of the earlier task. *)
Fixpoint first_failure (cs : list completion) : option (nat * exn) :=
  match cs with
  | [] => None
  | c :: rest =>
      match outcome c, first_failure rest with
      | inr _, later => later
      | inl e, None => Some (finished_at c, e)
      | inl e, Some (t, e') =>
          if (finished_at c <=? t)%nat then Some (finished_at c, e) else Some (t, e')
      end
  end.

(** The values of the tasks, in the order of the awaitables. *)
Definition returned (cs : list completion) : list (list series) :=
  flat_map (fun c => match outcome c with inr v => [v] | inl _ => [] end) cs.

(** ** [gather_data] *)

(** What [Decimal] raises on a string it cannot read. *)
Definition conversion_error : exn :=
  InvalidOperation "[<class 'decimal.ConversionSyntax'>]".

Section Gather.

(** The outside world of a call: the successive readings of
    [datetime.datetime.now()], the answer (and its instant) of the k-th
    range query submitted on a connection, and [decimal.Decimal] applied
    to a string, [None] standing for [InvalidOperation]. *)
Variable now : nat -> Z.
Variable custom_query_range :
  CustomPrometheusConnect -> nat -> range_request -> completion.
Variable decimal : Type.
Variable Decimal : string -> option decimal.

Variable ApiClient : Type.

Definition datetime_now : M Z :=
  fun w =>
    (inr (now (clock_reads w)),
     {| clock_reads := S (clock_reads w); submitted := submitted w;
        trace := trace w |}).

(** One [asyncio.to_thread(self.prometheus.custom_query_range, ...)]
    once [gather] has started it: the call is handed to the pool of
    worker threads, which is what the event records.  The pool is
    bounded: a call still waiting in it when the first failure is
    propagated has not reached the backend by then. *)
Definition submit (p : CustomPrometheusConnect) (r : range_request)
  : M completion :=
  fun w =>
    (inr (custom_query_range p (submitted w) r),
     {| clock_reads := clock_reads w; submitted := S (submitted w);
        trace := trace w ++ [QueryRange r] |}).

Definition to_decimal (s : string) : M decimal :=
  emit (ToDecimal s) ;;;
  match Decimal s with
  | Some d => ret d
  | None => raise conversion_error
  end.

(** The keyword arguments of one element of the list comprehension,
    evaluated left to right: the clock is read twice.  The subtraction
    is the one of the integers; Python raises [OverflowError] when
    [now - period] leaves the range of [datetime] ([is_datetime]), and
    the statements that count the queries or list the exceptions of a
    call assume it does not ([window_fits]). *)
Definition range_arguments
    (query_of : string -> string)
    (period timeframe : Timedelta.timedelta) (pod : string)
  : M range_request :=
  t0 <- datetime_now ;;
  t1 <- datetime_now ;;
  ret {| query := query_of pod;
         start_time := (t0 - period)%Z;
         end_time := t1;
         step := Timedelta.step_of timeframe |}.

(** [await asyncio.gather] over the tasks: every task is started; the first
    exception is propagated, otherwise the list of the values. *)
Definition asyncio_gather
    (p : CustomPrometheusConnect) (aws : list range_request)
  : M (list (list series)) :=
  done <- mapM (submit p) aws ;;
  match first_failure done with
  | Some (_, e) => raise e
  | None => ret (returned done)
  end.

(** Lines 120 to 151: the batch of per-pod results. *)
Definition fetch
    (self : PrometheusLoader ApiClient) (object : K8sObjectData)
    (resource : ResourceType) (period timeframe : Timedelta.timedelta)
  : M (list (list series)) :=
  match resource with
  | CPU =>
      aws <- mapM (range_arguments (cpu_query object) period timeframe)
               (pods object) ;;
      asyncio_gather (prometheus self) aws
  | Memory =>
      aws <- mapM (range_arguments (memory_query object) period timeframe)
               (pods object) ;;
      asyncio_gather (prometheus self) aws
  | Unsupported shown =>
      raise (ValueError ("Unknown resource type: " ++ shown))
  end.

(** [{pod: result[i] for i, pod in enumerate(object.pods)}], counting
    from [i]. *)
Fixpoint index_by_pod
    (result : list (list series)) (i : nat) (names : list string)
    (acc : dict (list series)) : M (dict (list series)) :=
  match names with
  | [] => ret acc
  | pod :: rest =>
      match nth_error result i with
      | Some pod_result => index_by_pod result (S i) rest (set acc pod pod_result)
      | None => raise (IndexError "list index out of range")
      end
  end.

(** [[Decimal(value) for _, value in pod_result[0]["values"]]] *)
Definition samples_of (pod_result : list series) : M (list decimal) :=
  match pod_result with
  | first :: _ => mapM (fun '(_, value) => to_decimal value) (values first)
  | [] => raise (IndexError "list index out of range")
  end.

(** [pod_result != []] *)
Definition non_empty {A : Type} (l : list A) : bool :=
  match l with [] => false | _ :: _ => true end.

(** The dictionary comprehension of lines 157 to 161. *)
Definition extract (pod_results : dict (list series))
  : M (dict (list decimal)) :=
  foldM (fun acc '(pod, pod_result) =>
           if non_empty pod_result then
             samples <- samples_of pod_result ;;
             ret (set acc pod samples)
           else ret acc)
        (items pod_results) empty.

(** Lines 153 to 161: from the batch to the returned dictionary. *)
Definition reshape (object : K8sObjectData) (result : list (list series))
  : M (dict (list decimal)) :=
  if negb (non_empty result) then ret (from_keys (pods object) [])
  else
    pod_results <- index_by_pod result 0 (pods object) empty ;;
    extract pod_results.

(** [gather_data], without its [self.debug] line. *)
Definition gather_data
    (self : PrometheusLoader ApiClient) (object : K8sObjectData)
    (resource : ResourceType) (period timeframe : Timedelta.timedelta)
  : M (dict (list decimal)) :=
  result <- fetch self object resource period timeframe ;;
  reshape object result.

End Gather.

Arguments datetime_now now _ : assert.
Arguments submit custom_query_range p r _ : assert.
Arguments to_decimal {decimal} Decimal s _ : assert.
Arguments range_arguments now query_of period timeframe pod _ : assert.
Arguments asyncio_gather custom_query_range p aws _ : assert.
Arguments fetch now custom_query_range {ApiClient} self object resource period timeframe _ : assert.
Arguments index_by_pod result i names acc _ : assert.
Arguments samples_of {decimal} Decimal pod_result _ : assert.
Arguments extract {decimal} Decimal pod_results _ : assert.
Arguments reshape {decimal} Decimal object result _ : assert.
Arguments gather_data now custom_query_range {decimal} Decimal {ApiClient}
  self object resource period timeframe _ : assert.

(** ** Vocabulary of the statements *)

(** The requests of one call, when the clock has been read [k] times. *)
Fixpoint requests_from
    (now : nat -> Z) (query_of : string -> string)
    (period timeframe : Timedelta.timedelta) (k : nat) (names : list string)
  : list range_request :=
  match names with
  | [] => []
  | pod :: rest =>
      {| query := query_of pod;
         start_time := (now k - period)%Z;
         end_time := now (S k);
         step := Timedelta.step_of timeframe |}
        :: requests_from now query_of period timeframe (S (S k)) rest
  end.

(** The answers to a list of requests, the first of them being the k-th
    range query on the connection. *)
Fixpoint completions_from
    (custom_query_range : CustomPrometheusConnect -> nat -> range_request -> completion)
    (p : CustomPrometheusConnect) (k : nat) (reqs : list range_request)
  : list completion :=
  match reqs with
  | [] => []
  | r :: rest =>
      custom_query_range p k r
        :: completions_from custom_query_range p (S k) rest
  end.

(** The query template of a supported resource type. *)
Definition query_of (object : K8sObjectData) (resource : ResourceType)
  : string -> string :=
  match resource with
  | Memory => memory_query object
  | _ => cpu_query object
  end.

Definition supported (resource : ResourceType) : bool :=
  match resource with
  | CPU | Memory => true
  | Unsupported _ => false
  end.

(** The per-pod answers of one [gather_data] call started in world [w],
    one per element of [object.pods], in that order. *)
Definition batch
    (now : nat -> Z)
    (custom_query_range : CustomPrometheusConnect -> nat -> range_request -> completion)
    {ApiClient : Type} (self : PrometheusLoader ApiClient)
    (object : K8sObjectData) (resource : ResourceType)
    (period timeframe : Timedelta.timedelta) (w : world)
  : list completion :=
  completions_from custom_query_range (prometheus self) (submitted w)
    (requests_from now (query_of object resource) period timeframe
       (clock_reads w) (pods object)).

(** The names of a list without repetition, each where it first occurs;
    [seen] holds the names already met. *)
Fixpoint fresh (seen : list string) (names : list string) : list string :=
  match names with
  | [] => []
  | x :: rest =>
      if existsb (String.eqb x) seen then fresh seen rest
      else x :: fresh (seen ++ [x]) rest
  end.

Definition uniq (names : list string) : list string := fresh [] names.

(** The result that stands at the last occurrence of a pod name; the empty
    list for a name that does not occur. *)
Definition last_result
    (names : list string) (result : list (list series)) (pod : string)
  : list series :=
  match get (rev (combine names result)) pod with
  | Some pod_result => pod_result
  | None => []
  end.

(** All the values of a series converted, or [None] when one is refused. *)
Fixpoint convert_all {decimal : Type} (Decimal : string -> option decimal)
    (vals : list (Q * string)) : option (list decimal) :=
  match vals with
  | [] => Some []
  | (_, value) :: rest =>
      match Decimal value with
      | None => None
      | Some d =>
          match convert_all Decimal rest with
          | None => None
          | Some ds => Some (d :: ds)
          end
      end
  end.

(** Successive assignments [d[k] = v], as a comprehension makes them. *)
Definition assign_all {V : Type} (acc : dict V) (pairs : list (string * V)) : dict V :=
  fold_left (fun d kv => set d (fst kv) (snd kv)) pairs acc.

(** What the comprehension of lines 157 to 161 builds from a dictionary
    with distinct keys: it skips the empty results and converts the first
    series of the others; [None] when a value is refused. *)
Fixpoint extracted {decimal : Type} (Decimal : string -> option decimal)
    (pod_results : list (string * list series)) : option (dict (list decimal)) :=
  match pod_results with
  | [] => Some []
  | (pod, []) :: rest => extracted Decimal rest
  | (pod, first :: _) :: rest =>
      match convert_all Decimal (values first) with
      | None => None
      | Some samples =>
          match extracted Decimal rest with
          | None => None
          | Some d => Some ((pod, samples) :: d)
          end
      end
  end.

(** Between two worlds nothing happened but conversions to [Decimal]. *)
Definition conversions_only (w w' : world) : Prop :=
  clock_reads w' = clock_reads w /\ submitted w' = submitted w /\
  exists strs, trace w' = trace w ++ map ToDecimal strs.

(** The world once the batch of a call started in [w] has been awaited. *)
Definition after_fetch
    (now : nat -> Z) (object : K8sObjectData) (resource : ResourceType)
    (period timeframe : Timedelta.timedelta) (w : world) : world :=
  {| clock_reads := clock_reads w + 2 * List.length (pods object);
     submitted := submitted w + List.length (pods object);
     trace := trace w ++
       map QueryRange
         (requests_from now (query_of object resource) period timeframe
            (clock_reads w) (pods object)) |}.

(** The value strings [gather_data] reads in one per-pod result: those of
    the first series, if there is one. *)
Definition sample_strings (pod_result : list series) : option (list string) :=
  match pod_result with
  | [] => None
  | first :: _ => Some (map snd (values first))
  end.

(** Two answers that are results holding the same value strings. *)
Definition same_samples (c1 c2 : completion) : Prop :=
  exists r1 r2,
    outcome c1 = inr r1 /\ outcome c2 = inr r2 /\
    sample_strings r1 = sample_strings r2.

(** Dictionaries with the same keys whose values hold the same strings. *)
Definition alike (d1 d2 : dict (list series)) : Prop :=
  Forall2 (fun x y => fst x = fst y /\ sample_strings (snd x) = sample_strings (snd y))
    d1 d2.

(** The request of the liveness check on a connection. *)
Definition liveness_request (p : CustomPrometheusConnect) : get_request :=
  {| get_url := url p ++ "/api/v1/query";
     get_verify := ssl_verification p;
     get_headers := headers p;
     get_params := [("query", "example")] |}.

(** The message of the [PrometheusNotFound] raised by the liveness check. *)
Definition liveness_message (p : CustomPrometheusConnect) (e : exn) : string :=
  "Couldn't connect to Prometheus found under " ++ url p
    ++ newline ++ "Caused by " ++ class_name e ++ ": " ++ str_exn e ++ ")".

(** The events of a run that are not in the world it started from. *)
Definition new_events {A : Type} (r : (exn + A) * world) (w : world) : list event :=
  skipn (List.length (trace w)) (events_of r).

(** The connection the constructor builds for a URL and a set of headers. *)
Definition connection_of (config : Config) (u : string) (hdrs : dict string)
  : CustomPrometheusConnect :=
  {| url := u; headers := hdrs;
     ssl_verification := negb (negb (prometheus_ssl_enabled config));
     pool_maxsize := 10; pool_block := true |}.

(** Line 72 as a value: the API client of the named cluster, [None]
    without a name, or the exception of a context that cannot be loaded. *)
Definition client_of {ApiClient : Type}
    (new_client_from_config : string -> exn + ApiClient) (cluster : option string)
  : exn + option ApiClient :=
  match cluster with
  | Some context =>
      match new_client_from_config context with
      | inl e => inl e
      | inr api => inr (Some api)
      end
  | None => inr None
  end.

(** The loader the constructor returns for a client, a URL and a set of
    headers. *)
Definition loader_of {ApiClient : Type}
    (config : Config) (client : option ApiClient) (u : string) (hdrs : dict string)
  : PrometheusLoader ApiClient :=
  {| auth_header := prometheus_auth_header config;
     ssl_enabled := prometheus_ssl_enabled config;
     api_client := client;
     loader_url := u;
     prometheus := connection_of config u hdrs |}.

(** A run of the constructor that has settled on the URL [u], the events
    [before] being those of the resolution.  If the headers cannot be
    built the run raises there and does nothing more.  Otherwise it mounts
    the two sessions at [u], sends the liveness request to the query
    endpoint under [u], and raises what the check raises or returns the
    loader that holds [u]. *)
Definition settled_on {ApiClient : Type}
    (update_params_for_auth :
       ApiClient -> dict string -> dict string -> list string -> dict string)
    (transport_get : get_request -> exn + response)
    (config : Config) (client : option ApiClient)
    (r : (exn + PrometheusLoader ApiClient) * world) (w : world)
    (before : list event) (u : string) : Prop :=
  match result_of (auth_headers ApiClient update_params_for_auth config client w) with
  | inl e => result_of r = inl e /\ new_events r w = before
  | inr hdrs =>
      new_events r w =
        before ++ [NewSession u; NewSession u;
                   SessionGet (liveness_request (connection_of config u hdrs))] /\
      result_of r =
        match result_of (_check_prometheus_connection transport_get
                           (connection_of config u hdrs) w) with
        | inl e => inl e
        | inr _ => inr (loader_of config client u hdrs)
        end
  end.

(** The error [raise_for_status] raises for a response that is not [ok]. *)
Definition http_error_of (r : response) : exn :=
  status_error r (if (status_code r <? 500)%Z then "Client" else "Server").

(** The two ways the no-op query of the liveness check fails, with the
    error each one starts from: the transport raises a connection error,
    or the response has a status from 400 to 599. *)
Inductive liveness_failure
    (transport_get : get_request -> exn + response) (p : CustomPrometheusConnect)
  : exn -> Prop :=
| connection_failed (m : string) :
    transport_get (liveness_request p) = inl (ConnectionError m) ->
    liveness_failure transport_get p (ConnectionError m)
| status_not_ok (resp : response) :
    transport_get (liveness_request p) = inr resp ->
    ok resp = false ->
    liveness_failure transport_get p (http_error_of resp).

(** The range of [datetime], the years 1 to 9999, in microseconds from the
    epoch. *)
Definition datetime_min : Z := (-62135596800000000)%Z.
Definition datetime_max : Z := 253402300799999999%Z.

Definition is_datetime (t : Z) : Prop := (datetime_min <= t <= datetime_max)%Z.

(** The start times of a call over [n] pods, begun when the clock has been
    read [k] times, are datetimes: [datetime.now() - period] does not
    overflow. *)
Definition window_fits (now : nat -> Z) (period : Timedelta.timedelta)
    (k n : nat) : Prop :=
  forall i, (i < n)%nat -> is_datetime (now (k + 2 * i)%nat - period).

(** A batch in which every per-pod result is the empty list. *)
Definition structurally_empty (cs : list completion) : Prop :=
  forall c, In c cs -> outcome c = inr [].

(** ** Sample collaborators, for the scenarios *)

Module Sample.

(** A decimal number: sign, coefficient and exponent, as [Decimal] holds
    it. *)
Record decimal : Type := {
  negative : bool;
  coefficient : N;
  exponent : Z
}.

Definition digit (c : ascii) : option N :=
  let n := N_of_ascii c in
  if ((48 <=? n) && (n <=? 57))%N then Some (n - 48)%N else None.

Fixpoint digits (s : string) (acc : N) : option N :=
  match s with
  | EmptyString => Some acc
  | String c rest =>
      match digit c with
      | Some d => digits rest (10 * acc + d)%N
      | None => None
      end
  end.

(** The text before the first point, and the text after it if any. *)
Fixpoint split_point (s : string) : string * option string :=
  match s with
  | EmptyString => (EmptyString, None)
  | String c rest =>
      if Ascii.eqb c "."%char then (EmptyString, Some rest)
      else let (a, b) := split_point rest in (String c a, b)
  end.

(** [Decimal] on the plain numerals, an optional sign, digits and an
    optional fraction; every other string is refused here. *)
Definition Decimal (s : string) : option decimal :=
  let (neg, body) :=
    match s with
    | String "-"%char rest => (true, rest)
    | String "+"%char rest => (false, rest)
    | _ => (false, s)
    end in
  let (whole, after) := split_point body in
  let frac := match after with Some f => f | None => EmptyString end in
  if (String.length whole + String.length frac =? 0)%nat then None
  else
    match digits (whole ++ frac) 0 with
    | Some n =>
        Some {| negative := neg; coefficient := n;
                exponent := (- Z.of_nat (String.length frac))%Z |}
    | None => None
    end.

(** A clock that advances by one microsecond at each reading. *)
Definition now (k : nat) : Z := (1700000000000000 + Z.of_nat k)%Z.

Definition ApiClient : Type := unit.
Definition new_client_from_config (context : string) : exn + ApiClient :=
  inr tt.

(** No context can be loaded: the name is not in the contexts list of the
    configuration file.  The message of the library also gives the path
    of that list, which is left out here. *)
Definition no_context (context : string) : exn + ApiClient :=
  inl (ConfigException
         ("Invalid kube-config file. Expected object with name " ++ context
            ++ " in contexts list")).

Definition no_url (sel : list string) (c : option ApiClient) : option string := None.
Definition discovered (sel : list string) (c : option ApiClient) : option string :=
  Some "http://prometheus.monitoring.svc:9090".

Definition update_params_for_auth
    (c : ApiClient) (hdrs querys : dict string) (settings : list string)
  : dict string :=
  set hdrs "authorization" "Bearer token".

(** The URL of a response to the liveness request. *)
Definition asked (r : get_request) : string := get_url r ++ "?query=example".

Definition healthy (r : get_request) : exn + response :=
  inr {| status_code := 200; reason := "OK"; response_url := asked r |}.
Definition broken (r : get_request) : exn + response :=
  inr {| status_code := 500; reason := "Internal Server Error";
         response_url := asked r |}.
Definition not_modified (r : get_request) : exn + response :=
  inr {| status_code := 304; reason := "Not Modified"; response_url := asked r |}.
Definition unreachable (r : get_request) : exn + response :=
  inl (ConnectionError "Connection refused").
Definition stalled (r : get_request) : exn + response :=
  inl (ReadTimeout "Read timed out. (read timeout=None)").

Definition configured : Config :=
  {| prometheus_url := Some "http://localhost:9090";
     prometheus_auth_header := Some "Basic dXNlcjpwYXNz";
     prometheus_ssl_enabled := false;
     inside_cluster := false |}.

Definition bare : Config :=
  {| prometheus_url := None;
     prometheus_auth_header := None;
     prometheus_ssl_enabled := false;
     inside_cluster := false |}.

Definition in_cluster : Config :=
  {| prometheus_url := None;
     prometheus_auth_header := None;
     prometheus_ssl_enabled := false;
     inside_cluster := true |}.

Definition connection : CustomPrometheusConnect :=
  connection_of configured "http://localhost:9090"
    [("Authorization", "Basic dXNlcjpwYXNz")].

Definition self : PrometheusLoader ApiClient :=
  {| auth_header := Some "Basic dXNlcjpwYXNz";
     ssl_enabled := false;
     api_client := None;
     loader_url := "http://localhost:9090";
     prometheus := connection |}.

(** The workload of the scenario. *)
Definition workload : K8sObjectData :=
  {| namespace := "ns1"; container := "c1"; pods := ["p1"; "p2"] |}.

Definition idle : K8sObjectData :=
  {| namespace := "ns1"; container := "c1"; pods := [] |}.

Definition t1 : Q := 1700000000 # 1.
Definition t2 : Q := 1700001800 # 1.

(** The backend of the scenario: two samples for the first query, no
    series for the second. *)
Definition backend (p : CustomPrometheusConnect) (k : nat) (r : range_request)
  : completion :=
  match k with
  | O => {| finished_at := 2;
            outcome := inr [{| metric := []; values := [(t1, "0.5"); (t2, "0.7")] |}] |}
  | _ => {| finished_at := 1; outcome := inr [] |}
  end.

(** A backend whose second query times out. *)
Definition flaky (p : CustomPrometheusConnect) (k : nat) (r : range_request)
  : completion :=
  match k with
  | 1%nat => {| finished_at := 5; outcome := inl (ReadTimeout "Read timed out.") |}
  | _ => {| finished_at := 1;
            outcome := inr [{| metric := []; values := [(t1, "0.5")] |}] |}
  end.

(** A backend that answers every query with one sample. *)
Definition steady (p : CustomPrometheusConnect) (k : nat) (r : range_request)
  : completion :=
  {| finished_at := k;
     outcome := inr [{| metric := []; values := [(t1, "0.5")] |}] |}.

(** The backend of the scenario with its answers arriving in the other
    order, other timestamps, labels, and a second series for p1. *)
Definition reordered (p : CustomPrometheusConnect) (k : nat) (r : range_request)
  : completion :=
  match k with
  | O => {| finished_at := 1;
            outcome :=
              inr [{| metric := [("pod_name", "p1")];
                      values := [(t2, "0.5"); (t2 + 60, "0.7")] |};
                   {| metric := [("pod_name", "p1"); ("image", "pause")];
                      values := [(t2, "9.9")] |}] |}
  | _ => {| finished_at := 2; outcome := inr [] |}
  end.

(** A backend that has no data: every answer is the empty result. *)
Definition silent (p : CustomPrometheusConnect) (k : nat) (r : range_request)
  : completion :=
  {| finished_at := k; outcome := inr [] |}.

(** A backend whose answers hold a value that is not a number. *)
Definition garbled (p : CustomPrometheusConnect) (k : nat) (r : range_request)
  : completion :=
  {| finished_at := 1;
     outcome := inr [{| metric := []; values := [(t1, "0.5"); (t2, "n/a")] |}] |}.

Definition half : decimal :=
  {| negative := false; coefficient := 5; exponent := -1 |}.
Definition seven_tenths : decimal :=
  {| negative := false; coefficient := 7; exponent := -1 |}.

(** The scenario: CPU history of the workload over thirty days. *)
Definition scenario : (exn + dict (list decimal)) * world :=
  gather_data now backend Decimal self workload CPU
    (Timedelta.of_days 30) Timedelta.default_timeframe initial_world.

(** The same call with a timeframe of minus thirty seconds. *)
Definition backwards : (exn + dict (list decimal)) * world :=
  gather_data now backend Decimal self workload CPU
    (Timedelta.of_days 30) (Timedelta.of_seconds (-30)) initial_world.

(** The scenario against the backend that has no data. *)
Definition quiet : (exn + dict (list decimal)) * world :=
  gather_data now silent Decimal self workload CPU
    (Timedelta.of_days 30) Timedelta.default_timeframe initial_world.

(** Construction for a cluster whose context cannot be loaded, with
    nothing configured and nothing discovered. *)
Definition stranded : (exn + PrometheusLoader ApiClient) * world :=
  __init__ ApiClient no_context no_url update_params_for_auth
    healthy bare (Some "missing") initial_world.

(** Construction against a backend that answers 304. *)
Definition unchanged : (exn + PrometheusLoader ApiClient) * world :=
  __init__ ApiClient new_client_from_config discovered update_params_for_auth
    not_modified configured None initial_world.

(** Construction with nothing configured and nothing discovered. *)
Definition construction : (exn + PrometheusLoader ApiClient) * world :=
  __init__ ApiClient new_client_from_config no_url update_params_for_auth
    healthy bare None initial_world.

End Sample.

(** * Facts *)

(** ** The step of a range query *)

Module TimedeltaFacts.
Import Timedelta.

Lemma total_seconds_floor (td : timedelta) :
  Qfloor (total_seconds td) = (td / 1000000)%Z.
Proof.
  unfold total_seconds. cbn. now rewrite Z.mul_1_r.
Qed.

Lemma minutes_floor (td : timedelta) :
  Qfloor (total_seconds td / inject_Z 60) = (td / 60000000)%Z.
Proof.
  unfold total_seconds. cbn. now rewrite !Z.mul_1_r.
Qed.

Lemma total_seconds_sign (td : timedelta) :
  (0 <= td)%Z -> Qle_bool 0 (total_seconds td) = true.
Proof.
  intros H. unfold total_seconds, Qle_bool. cbn. 
  apply Z.leb_le. lia.
Qed.

Lemma int_total_seconds (td : timedelta) :
  (0 <= td)%Z -> int_of_float (total_seconds td) = (td / 1000000)%Z.
Proof.
  intros H. unfold int_of_float.
  rewrite total_seconds_sign by assumption. apply total_seconds_floor.
Qed.

Lemma step_of_nonneg (td : timedelta) :
  (0 <= td)%Z ->
  step_of td = (str_int (Qfloor (total_seconds td / inject_Z 60)) ++ "m")%string.
Proof.
  intros H. unfold step_of. rewrite int_total_seconds by assumption.
  rewrite minutes_floor. rewrite Z.div_div by lia. reflexivity.
Qed.

Lemma step_of_short (td : timedelta) :
  (0 <= td < of_minutes 1)%Z -> step_of td = "0m".
Proof.
  intros [H0 H1]. unfold step_of. rewrite int_total_seconds by assumption.
  rewrite Z.div_div by lia. unfold of_minutes in H1.
  rewrite Z.div_small by lia. reflexivity.
Qed.

End TimedeltaFacts.

(** ** The constructor *)

Lemma skipn_exact {A : Type} (l l' : list A) : skipn (List.length l) (l ++ l') = l'.
Proof. induction l; simpl; auto. Qed.

Lemma new_events_app {A : Type} (r : (exn + A) * world) (w : world) (evs : list event) :
  trace (snd r) = trace w ++ evs -> new_events r w = evs.
Proof. intros H. unfold new_events, events_of. rewrite H. apply skipn_exact. Qed.

Lemma new_events_pair {A : Type} (x : exn + A) (w' w : world) (evs : list event) :
  trace w' = trace w ++ evs -> new_events (x, w') w = evs.
Proof. intros H. now apply new_events_app. Qed.

Lemma truthy_true (s : option string) :
  truthy s = true -> exists c r, s = Some (String c r).
Proof. destruct s as [[|c r]|]; simpl; try discriminate. eauto. Qed.

Section LoaderFacts.
Variable ApiClient : Type.
Variable new_client_from_config : string -> exn + ApiClient.
Variable find_url : list string -> option ApiClient -> option string.
Variable update_params_for_auth :
  ApiClient -> dict string -> dict string -> list string -> dict string.
Variable transport_get : get_request -> exn + response.

Local Abbreviation init :=
  (__init__ ApiClient new_client_from_config find_url update_params_for_auth transport_get).
Local Abbreviation check := (_check_prometheus_connection transport_get).
Local Abbreviation resolve := (resolve_url ApiClient find_url).
Local Abbreviation auth := (auth_headers ApiClient update_params_for_auth).
Local Abbreviation loaded := (client_of new_client_from_config).
Local Abbreviation settled := (settled_on update_params_for_auth transport_get).

Lemma api_client_for_run cluster w :
  api_client_for ApiClient new_client_from_config cluster w =
    (match loaded cluster with inl e => inl e | inr client => inr client end, w).
Proof.
  unfold api_client_for, client_of. destruct cluster as [context|]; [|reflexivity].
  destruct (new_client_from_config context); reflexivity.
Qed.

Lemma resolve_url_run config client w :
  resolve config client w =
    (inr (py_or (prometheus_url config) (find_url selectors client)),
     if truthy (prometheus_url config) then w else log (FindUrl selectors) w).
Proof.
  unfold resolve_url, py_or. destruct (truthy (prometheus_url config)); reflexivity.
Qed.

Lemma auth_headers_world config client w : snd (auth config client w) = w.
Proof.
  unfold auth_headers.
  destruct (prometheus_auth_header config) as [[|c s]|];
    destruct (inside_cluster config); destruct client; reflexivity.
Qed.

Lemma auth_headers_result config client w w' :
  result_of (auth config client w) = result_of (auth config client w').
Proof.
  unfold auth_headers.
  destruct (prometheus_auth_header config) as [[|c s]|];
    destruct (inside_cluster config); destruct client; reflexivity.
Qed.

Lemma check_world p w : snd (check p w) = log (SessionGet (liveness_request p)) w.
Proof.
  unfold _check_prometheus_connection, try_except, bind, session_get, liveness_request.
  destruct (transport_get _) as [e|resp]; simpl.
  - destruct (caught e); reflexivity.
  - unfold raise_for_status.
    destruct ((400 <=? status_code resp)%Z && (status_code resp <? 500)%Z); simpl; auto.
    destruct ((500 <=? status_code resp)%Z && (status_code resp <? 600)%Z); simpl; auto.
Qed.

Lemma check_result p w w' : result_of (check p w) = result_of (check p w').
Proof.
  unfold _check_prometheus_connection, try_except, bind, session_get.
  destruct (transport_get _) as [e|resp]; simpl.
  - destruct (caught e); reflexivity.
  - unfold raise_for_status.
    destruct ((400 <=? status_code resp)%Z && (status_code resp <? 500)%Z); simpl; auto.
    destruct ((500 <=? status_code resp)%Z && (status_code resp <? 600)%Z); simpl; auto.
Qed.

Lemma check_returns p w :
  result_of (check p w) = inr tt <->
  exists resp, transport_get (liveness_request p) = inr resp /\ ok resp = true.
Proof.
  unfold _check_prometheus_connection, try_except, bind, session_get.
  fold (liveness_request p).
  destruct (transport_get (liveness_request p)) as [e|resp]; simpl.
  - split.
    + destruct (caught e); discriminate.
    + intros (resp & Hr & _). discriminate.
  - unfold raise_for_status, ok.
    destruct ((400 <=? status_code resp)%Z && (status_code resp <? 500)%Z) eqn:E4; simpl.
    + split; [discriminate|]. intros (r & Hr & Hok). injection Hr as <-.
      apply negb_true_iff, andb_false_iff in Hok.
      apply andb_true_iff in E4. lia.
    + destruct ((500 <=? status_code resp)%Z && (status_code resp <? 600)%Z) eqn:E5; simpl.
      * split; [discriminate|]. intros (r & Hr & Hok). injection Hr as <-.
        apply negb_true_iff, andb_false_iff in Hok.
        apply andb_true_iff in E5. lia.
      * split; auto. intros _. exists resp. split; auto.
        apply negb_true_iff, andb_false_iff.
        apply andb_false_iff in E4, E5. lia.
Qed.

Lemma check_failure p w e :
  liveness_failure transport_get p e ->
  result_of (check p w) = inl (PrometheusNotFound (liveness_message p e) (Some e)).
Proof.
  intros [m H|resp H Hok];
    unfold _check_prometheus_connection, try_except, bind, session_get;
    fold (liveness_request p); rewrite H; simpl.
  - reflexivity.
  - unfold ok in Hok. apply negb_false_iff, andb_true_iff in Hok.
    destruct Hok as [Ha Hb]. apply Z.leb_le in Ha. apply Z.ltb_lt in Hb.
    unfold raise_for_status, http_error_of.
    destruct (status_code resp <? 500)%Z eqn:E.
    + apply Z.ltb_lt in E.
      replace ((400 <=? status_code resp)%Z) with true by (symmetry; apply Z.leb_le; lia).
      reflexivity.
    + apply Z.ltb_ge in E. rewrite andb_false_r.
      replace ((500 <=? status_code resp)%Z) with true by (symmetry; apply Z.leb_le; lia).
      replace ((status_code resp <? 600)%Z) with true by (symmetry; apply Z.ltb_lt; lia).
      reflexivity.
Qed.

Lemma init_load_failure config cluster w e :
  loaded cluster = inl e -> init config cluster w = (inl e, w).
Proof.
  intros H. unfold __init__, bind. rewrite api_client_for_run, H. reflexivity.
Qed.

Lemma init_not_found config cluster client w :
  loaded cluster = inr client ->
  truthy (py_or (prometheus_url config) (find_url selectors client)) = false ->
  init config cluster w =
    (inl (PrometheusNotFound
            ("Prometheus url could not be found while scanning in "
               ++ cluster_or_default cluster ++ " cluster") None),
     if truthy (prometheus_url config) then w else log (FindUrl selectors) w).
Proof.
  intros Hl H. unfold __init__, bind. rewrite api_client_for_run, Hl, resolve_url_run.
  destruct (py_or _ _) as [[|c s]|]; simpl in H; try discriminate; reflexivity.
Qed.

Lemma init_found config cluster client w u :
  loaded cluster = inr client ->
  py_or (prometheus_url config) (find_url selectors client) = Some u ->
  truthy (Some u) = true ->
  let w1 := if truthy (prometheus_url config) then w else log (FindUrl selectors) w in
  init config cluster w =
    match result_of (auth config client w) with
    | inl e => (inl e, w1)
    | inr hdrs =>
        let p := connection_of config u hdrs in
        (match result_of (check p w) with
         | inl e => inl e
         | inr _ => inr (loader_of config client u hdrs)
         end,
         log (SessionGet (liveness_request p))
           (log (NewSession u) (log (NewSession u) w1)))
    end.
Proof.
  intros Hl H Ht w1. unfold __init__, bind.
  rewrite api_client_for_run, Hl, resolve_url_run, H. fold w1.
  destruct u as [|c s]; [discriminate|].
  rewrite (auth_headers_result config client w w1).
  pose proof (auth_headers_world config client w1) as Hw.
  destruct (auth config client w1) as [[e|hdrs] w2]; simpl in Hw; subst w2; simpl.
  - reflexivity.
  - unfold CustomPrometheusConnect_init, bind, emit, ret. simpl.
    fold (connection_of config (String c s) hdrs).
    rewrite (check_result (connection_of config (String c s) hdrs) w
               (log (NewSession (String c s)) (log (NewSession (String c s)) w1))).
    pose proof (check_world (connection_of config (String c s) hdrs)
                  (log (NewSession (String c s)) (log (NewSession (String c s)) w1))) as Hc.
    unfold result_of, loader_of.
    destruct (check _ _) as [[e|[]] w3]; simpl in *; subst w3; reflexivity.
Qed.

Lemma resolution_events config w :
  trace (if truthy (prometheus_url config) then w else log (FindUrl selectors) w)
  = trace w ++ (if truthy (prometheus_url config) then [] else [FindUrl selectors]).
Proof.
  destruct (truthy (prometheus_url config)); simpl; [now rewrite app_nil_r | reflexivity].
Qed.

Lemma init_settled config cluster client w u :
  loaded cluster = inr client ->
  py_or (prometheus_url config) (find_url selectors client) = Some u ->
  truthy (Some u) = true ->
  settled config client (init config cluster w) w
    (if truthy (prometheus_url config) then [] else [FindUrl selectors]) u.
Proof.
  intros Hl Hu Ht. unfold settled_on.
  rewrite (init_found config cluster client w u Hl Hu Ht). cbv zeta.
  destruct (result_of (auth config client w)) as [e|hdrs].
  - split; [reflexivity|].
    apply new_events_pair. apply resolution_events.
  - split; [|reflexivity].
    apply new_events_pair. simpl. rewrite resolution_events.
    rewrite <- !app_assoc. reflexivity.
Qed.


(** C8, as amended.  The liveness check sends one request.  A connection
    error, or a response whose status is from 400 to 599, becomes a
    [PrometheusNotFound] whose cause is the error it started from; a
    constructor that reaches the check raises that same exception.  A
    response with any other status passes the check, and a constructor
    that returns a loader has had such a response. *)
Theorem liveness_check_failure :
  (forall p w e, liveness_failure transport_get p e ->
     result_of (check p w) =
       inl (PrometheusNotFound (liveness_message p e) (Some e)) /\
     new_events (check p w) w = [SessionGet (liveness_request p)]) /\
  (forall config cluster client w u hdrs e,
     loaded cluster = inr client ->
     py_or (prometheus_url config) (find_url selectors client) = Some u ->
     truthy (Some u) = true ->
     result_of (auth config client w) = inr hdrs ->
     liveness_failure transport_get (connection_of config u hdrs) e ->
     result_of (init config cluster w) =
       inl (PrometheusNotFound
              (liveness_message (connection_of config u hdrs) e) (Some e))) /\
  (forall p w resp,
     transport_get (liveness_request p) = inr resp -> ok resp = true ->
     result_of (check p w) = inr tt) /\
  (forall config cluster w loader,
     result_of (init config cluster w) = inr loader ->
     exists resp,
       transport_get (liveness_request (prometheus loader)) = inr resp /\
       ok resp = true).
Proof.
  split; [|split; [|split]].
  - intros p w e Hf. split.
    + now apply check_failure.
    + apply new_events_app. rewrite check_world. reflexivity.
  - intros config cluster client w u hdrs e Hl Hu Ht Hauth Hf.
    rewrite (init_found config cluster client w u Hl Hu Ht). cbv zeta.
    rewrite Hauth. unfold result_of at 1. simpl.
    rewrite (check_failure _ _ e Hf). reflexivity.
  - intros p w resp Hr Hok. apply check_returns. eauto.
  - intros config cluster w loader Hrun.
    destruct (loaded cluster) as [e|client] eqn:Hl.
    { rewrite (init_load_failure config cluster w e Hl) in Hrun. discriminate. }
    destruct (truthy (py_or (prometheus_url config) (find_url selectors client))) eqn:Ht.
    + destruct (truthy_true _ Ht) as (c & s & Hu).
      rewrite (init_found config cluster client w (String c s) Hl Hu eq_refl) in Hrun.
      cbv zeta in Hrun.
      destruct (result_of (auth config client w)) as [e|hdrs]; [discriminate|].
      unfold result_of at 1 in Hrun. simpl in Hrun.
      destruct (result_of (check (connection_of config (String c s) hdrs) w))
        as [e|[]] eqn:Hc; [discriminate|].
      injection Hrun as <-. simpl.
      apply check_returns in Hc. exact Hc.
    + rewrite (init_not_found config cluster client w Hl Ht) in Hrun. discriminate.
Qed.

(** C10, as amended.  With no configured authentication header, outside
    the cluster, with no cluster name, and once a URL has been resolved,
    the constructor raises [AttributeError] on the absent API client; it
    has not created a session by then. *)
Theorem missing_api_client config w :
  truthy (prometheus_auth_header config) = false ->
  inside_cluster config = false ->
  truthy (py_or (prometheus_url config) (find_url selectors None)) = true ->
  result_of (init config None w) =
    inl (AttributeError "'NoneType' object has no attribute 'update_params_for_auth'") /\
  forall ev, In ev (new_events (init config None w) w) -> is_session_event ev = false.
Proof.
  intros Ha Hi Hu.
  destruct (truthy_true _ Hu) as (c & s & Hs).
  rewrite (init_found config None None w (String c s) eq_refl Hs eq_refl). cbv zeta.
  assert (Hauth : forall w', auth config None w' =
            (inl (AttributeError "'NoneType' object has no attribute 'update_params_for_auth'"), w')).
  { intros w'. unfold auth_headers. rewrite Hi.
    destruct (prometheus_auth_header config) as [[|c' s']|]; simpl in Ha;
      try discriminate; reflexivity. }
  rewrite Hauth. unfold result_of at 1 2. simpl. split; [reflexivity|].
  destruct (truthy (prometheus_url config)).
  - rewrite (new_events_pair _ _ w []) by (simpl; now rewrite app_nil_r).
    intros ev [].
  - rewrite (new_events_pair _ _ w [FindUrl selectors]) by reflexivity.
    intros ev [<-|[]]. reflexivity.
Qed.
End LoaderFacts.

(** ** Dictionaries and pod names *)

Section DictFacts.
Context {V : Type}.
Implicit Types (d acc : dict V) (k : string) (v : V).

Lemma get_set_same d k v : get (set d k v) k = Some v.
Proof.
  induction d as [|[k' v'] d IH]; simpl.
  - now rewrite String.eqb_refl.
  - destruct (String.eqb k' k) eqn:E; simpl; rewrite E; auto.
Qed.

Lemma get_set_other d k k' v : k <> k' -> get (set d k v) k' = get d k'.
Proof.
  intros Hne. induction d as [|[k0 v0] d IH]; simpl.
  - destruct (String.eqb k k') eqn:E; auto.
    apply String.eqb_eq in E. contradiction.
  - destruct (String.eqb k0 k) eqn:E; simpl.
    + apply String.eqb_eq in E. subst k0.
      destruct (String.eqb k k') eqn:E'; auto.
      apply String.eqb_eq in E'. contradiction.
    + now rewrite IH.
Qed.

Lemma get_None d k : get d k = None <-> ~ In k (keys d).
Proof.
  induction d as [|[k' v'] d IH]; simpl.
  - tauto.
  - destruct (String.eqb k' k) eqn:E.
    + apply String.eqb_eq in E. split; [discriminate | tauto].
    + apply String.eqb_neq in E. rewrite IH. tauto.
Qed.

Lemma get_app d d' k :
  get (d ++ d') k = match get d k with Some v => Some v | None => get d' k end.
Proof.
  induction d as [|[k' v'] d IH]; simpl; auto.
  destruct (String.eqb k' k); auto.
Qed.

Lemma set_fresh d k v : ~ In k (keys d) -> set d k v = d ++ [(k, v)].
Proof.
  induction d as [|[k' v'] d IH]; simpl; intros Hn; auto.
  destruct (String.eqb k' k) eqn:E.
  - apply String.eqb_eq in E. tauto.
  - rewrite IH; tauto.
Qed.

Lemma keys_set_present d k v : In k (keys d) -> keys (set d k v) = keys d.
Proof.
  induction d as [|[k' v'] d IH]; simpl; intros Hin; [tauto|].
  destruct (String.eqb k' k) eqn:E; simpl; auto.
  apply String.eqb_neq in E. f_equal. apply IH. tauto.
Qed.

Lemma keys_set_fresh d k v : ~ In k (keys d) -> keys (set d k v) = keys d ++ [k].
Proof.
  intros H. rewrite set_fresh by auto. unfold keys. now rewrite map_app.
Qed.

Lemma get_assign_all pairs : forall acc k,
  get (assign_all acc pairs) k =
    match get (rev pairs) k with Some v => Some v | None => get acc k end.
Proof.
  induction pairs as [|[k0 v0] pairs IH]; intros acc k; simpl; auto.
  unfold assign_all in *. simpl. rewrite IH. rewrite get_app.
  destruct (get (rev pairs) k); auto. simpl.
  destruct (String.eqb k0 k) eqn:E.
  - apply String.eqb_eq in E. subst. apply get_set_same.
  - apply String.eqb_neq in E. now apply get_set_other.
Qed.

Lemma existsb_eqb_In x (seen : list string) :
  existsb (String.eqb x) seen = true <-> In x seen.
Proof.
  rewrite existsb_exists. split.
  - intros (y & Hy & E). apply String.eqb_eq in E. now subst.
  - intros H. exists x. split; auto. apply String.eqb_refl.
Qed.

Lemma keys_assign_all pairs : forall acc,
  keys (assign_all acc pairs) = keys acc ++ fresh (keys acc) (map fst pairs).
Proof.
  induction pairs as [|[k0 v0] pairs IH]; intros acc; simpl.
  - now rewrite app_nil_r.
  - unfold assign_all in *. simpl. rewrite IH.
    destruct (existsb (String.eqb k0) (keys acc)) eqn:E.
    + apply existsb_eqb_In in E. now rewrite keys_set_present.
    + assert (Hn : ~ In k0 (keys acc)).
      { intros H. apply existsb_eqb_In in H. congruence. }
      rewrite keys_set_fresh by assumption. now rewrite <- app_assoc.
Qed.

Lemma from_keys_assign (ks : list string) v :
  from_keys ks v = assign_all empty (map (fun k => (k, v)) ks).
Proof.
  unfold from_keys, assign_all. generalize (@empty V).
  induction ks as [|k ks IH]; intros acc; simpl; auto.
Qed.

Lemma get_const_pairs (ks : list string) v k :
  get (rev (map (fun k => (k, v)) ks)) k = if in_dec string_dec k ks then Some v else None.
Proof.
  induction ks as [|k0 ks IH]; simpl; auto.
  rewrite get_app, IH. simpl.
  destruct (in_dec string_dec k ks) as [Hi|Hn].
  - destruct (string_dec k0 k); auto.
  - destruct (String.eqb k0 k) eqn:E.
    + apply String.eqb_eq in E. destruct (string_dec k0 k); [reflexivity|contradiction].
    + apply String.eqb_neq in E. destruct (string_dec k0 k); [contradiction|].
      destruct (in_dec string_dec k ks); [contradiction|reflexivity].
Qed.

Lemma from_keys_get (ks : list string) v k :
  In k ks -> get (from_keys ks v) k = Some v.
Proof.
  intros Hin. rewrite from_keys_assign, get_assign_all, get_const_pairs.
  destruct (in_dec string_dec k ks); [reflexivity|contradiction].
Qed.

Lemma from_keys_keys (ks : list string) v : keys (from_keys ks v) = uniq ks.
Proof.
  rewrite from_keys_assign, keys_assign_all. simpl.
  rewrite map_map. simpl. now rewrite map_id.
Qed.
End DictFacts.

Section UniqFacts.
Lemma fresh_In seen names x :
  In x (fresh seen names) <-> In x names /\ ~ In x seen.
Proof.
  revert seen. induction names as [|y names IH]; intros seen; simpl.
  - tauto.
  - destruct (existsb (String.eqb y) seen) eqn:E.
    + apply existsb_eqb_In in E. rewrite IH. split.
      * tauto.
      * intros [[->|H] Hn]; tauto.
    + assert (Hn : ~ In y seen).
      { intros H. apply existsb_eqb_In in H. congruence. }
      simpl. rewrite IH. rewrite in_app_iff. simpl.
      destruct (string_dec y x) as [->|Hne]; tauto.
Qed.

Lemma fresh_NoDup seen names : NoDup (fresh seen names).
Proof.
  revert seen. induction names as [|y names IH]; intros seen; simpl.
  - constructor.
  - destruct (existsb (String.eqb y) seen); auto.
    constructor; auto. rewrite fresh_In, in_app_iff. simpl. tauto.
Qed.

Lemma uniq_In names x : In x (uniq names) <-> In x names.
Proof. unfold uniq. rewrite fresh_In. simpl. tauto. Qed.

Lemma uniq_NoDup names : NoDup (uniq names).
Proof. apply fresh_NoDup. Qed.

Lemma fresh_length seen names : (List.length (fresh seen names) <= List.length names)%nat.
Proof.
  revert seen. induction names as [|y names IH]; intros seen; simpl; auto.
  destruct (existsb _ _); simpl.
  - specialize (IH seen). lia.
  - specialize (IH (seen ++ [y])). lia.
Qed.

Lemma fresh_of_NoDup names : forall seen,
  NoDup names -> (forall x, In x names -> ~ In x seen) -> fresh seen names = names.
Proof.
  induction names as [|y names IH]; intros seen Hnd Hdis; simpl; auto.
  inversion Hnd as [|? ? Hy Hnd']; subst.
  destruct (existsb (String.eqb y) seen) eqn:E.
  - apply existsb_eqb_In in E. exfalso. apply (Hdis y); simpl; auto.
  - f_equal. apply IH; auto. intros x Hx. rewrite in_app_iff. simpl.
    intros [H|[->|[]]]; [apply (Hdis x); simpl; auto | contradiction].
Qed.

Lemma uniq_of_NoDup names : NoDup names -> uniq names = names.
Proof. intros H. apply fresh_of_NoDup; auto. Qed.
End UniqFacts.

(** ** The batch of a call *)

Lemma conversions_only_refl w : conversions_only w w.
Proof. repeat split. exists []. simpl. now rewrite app_nil_r. Qed.

Lemma conversions_only_trans w1 w2 w3 :
  conversions_only w1 w2 -> conversions_only w2 w3 -> conversions_only w1 w3.
Proof.
  intros (Ha & Hb & l & Hl) (Ha' & Hb' & l' & Hl').
  repeat split; try congruence.
  exists (l ++ l'). rewrite Hl', Hl, map_app. now rewrite app_assoc.
Qed.

Section FirstFailure.
Lemma first_failure_None cs :
  first_failure cs = None <-> map outcome cs = map inr (returned cs).
Proof.
  induction cs as [|c cs IH]; simpl.
  - tauto.
  - unfold returned in *. simpl. destruct (outcome c) as [e|v] eqn:E; simpl.
    + split.
      * destruct (first_failure cs) as [[t e']|]; [destruct (finished_at c <=? t)%nat|]; discriminate.
      * intros H. destruct (flat_map _ cs); discriminate.
    + rewrite IH. split; [intros ->; reflexivity | intros H; now injection H].
Qed.

Lemma first_failure_Some cs t e :
  first_failure cs = Some (t, e) ->
  exists c, In c cs /\ outcome c = inl e /\ finished_at c = t /\
    forall c' e', In c' cs -> outcome c' = inl e' -> (t <= finished_at c')%nat.
Proof.
  revert t e. induction cs as [|c cs IH]; simpl; intros t e H; [discriminate|].
  destruct (outcome c) as [e0|v] eqn:E.
  - destruct (first_failure cs) as [[t1 e1]|] eqn:F.
    + destruct (IH t1 e1 eq_refl) as (c1 & Hin & Ho & Ht & Hmin).
      destruct (finished_at c <=? t1)%nat eqn:L; injection H as <- <-.
      * apply Nat.leb_le in L. exists c. repeat split; auto.
        intros c' e' [<-|Hc'] Ho'; [lia|]. specialize (Hmin c' e' Hc' Ho'). lia.
      * apply Nat.leb_gt in L. exists c1. repeat split; auto.
        intros c' e' [<-|Hc'] Ho'; [lia|]. eauto.
    + injection H as <- <-. exists c. repeat split; auto.
      intros c' e' [<-|Hc'] Ho'; [lia|].
      exfalso. apply first_failure_None in F.
      apply (in_map outcome) in Hc'. rewrite F, Ho' in Hc'.
      apply in_map_iff in Hc'. destruct Hc' as (x & Hx & _). discriminate.
  - destruct (IH t e H) as (c1 & Hin & Ho & Ht & Hmin).
    exists c1. repeat split; auto.
    intros c' e' [<-|Hc'] Ho'; [congruence|]. eauto.
Qed.

Lemma first_failure_exists cs c e :
  In c cs -> outcome c = inl e -> exists t e', first_failure cs = Some (t, e').
Proof.
  intros Hin Ho. destruct (first_failure cs) as [[t e']|] eqn:F; eauto.
  exfalso. apply first_failure_None in F.
  apply (in_map outcome) in Hin. rewrite F, Ho in Hin.
  apply in_map_iff in Hin. destruct Hin as (x & Hx & _). discriminate.
Qed.

Lemma returned_length cs :
  first_failure cs = None -> List.length (returned cs) = List.length cs.
Proof.
  intros H. apply first_failure_None in H.
  apply (f_equal (@List.length _)) in H. rewrite !length_map in H. auto.
Qed.
End FirstFailure.

Section GatherFacts.
Variable now : nat -> Z.
Variable custom_query_range :
  CustomPrometheusConnect -> nat -> range_request -> completion.
Variable decimal : Type.
Variable Decimal : string -> option decimal.
Variable ApiClient : Type.

Lemma mapM_range_arguments q period timeframe names : forall w,
  mapM (range_arguments now q period timeframe) names w =
    (inr (requests_from now q period timeframe (clock_reads w) names),
     {| clock_reads := clock_reads w + 2 * List.length names;
        submitted := submitted w; trace := trace w |}).
Proof.
  induction names as [|pod names IH]; intros w.
  - simpl. unfold ret. destruct w; simpl. now rewrite Nat.add_0_r.
  - simpl. unfold bind at 1. unfold range_arguments at 1, bind, datetime_now, ret. simpl.
    unfold bind in IH. rewrite IH. simpl. f_equal. f_equal. lia.
Qed.

Lemma mapM_submit p reqs : forall w,
  mapM (submit custom_query_range p) reqs w =
    (inr (completions_from custom_query_range p (submitted w) reqs),
     {| clock_reads := clock_reads w;
        submitted := submitted w + List.length reqs;
        trace := trace w ++ map QueryRange reqs |}).
Proof.
  induction reqs as [|r reqs IH]; intros w.
  - simpl. unfold ret. destruct w; simpl. now rewrite Nat.add_0_r, app_nil_r.
  - simpl. unfold bind at 1. unfold submit at 1. simpl.
    unfold bind, ret. rewrite IH. simpl. f_equal. f_equal; try lia.
    now rewrite <- app_assoc.
Qed.

Lemma requests_from_length q period timeframe names k :
  List.length (requests_from now q period timeframe k names) = List.length names.
Proof. revert k. induction names; simpl; auto. Qed.

Lemma completions_from_length p reqs k :
  List.length (completions_from custom_query_range p k reqs) = List.length reqs.
Proof. revert k. induction reqs; simpl; auto. Qed.

Lemma requests_from_step q period timeframe names k r :
  In r (requests_from now q period timeframe k names) ->
  step r = Timedelta.step_of timeframe.
Proof.
  revert k. induction names as [|pod names IH]; simpl; intros k; [tauto|].
  intros [<-|H]; eauto.
Qed.

Lemma batch_length (self : PrometheusLoader ApiClient) object resource period timeframe w :
  List.length (batch now custom_query_range self object resource period timeframe w)
  = List.length (pods object).
Proof. unfold batch. now rewrite completions_from_length, requests_from_length. Qed.

Lemma fetch_run (self : PrometheusLoader ApiClient) object resource period timeframe w :
  supported resource = true ->
  fetch now custom_query_range self object resource period timeframe w =
    (match first_failure
             (batch now custom_query_range self object resource period timeframe w) with
     | Some (_, e) => inl e
     | None => inr (returned
                      (batch now custom_query_range self object resource period timeframe w))
     end,
     after_fetch now object resource period timeframe w).
Proof.
  intros Hs. unfold batch, after_fetch.
  destruct resource; try discriminate; unfold fetch, bind;
    rewrite mapM_range_arguments; unfold asyncio_gather, bind;
    rewrite mapM_submit; simpl; rewrite requests_from_length;
    destruct (first_failure _) as [[t e]|]; reflexivity.
Qed.

Lemma fetch_unsupported (self : PrometheusLoader ApiClient) object shown period timeframe w :
  fetch now custom_query_range self object (Unsupported shown) period timeframe w =
    (inl (ValueError ("Unknown resource type: " ++ shown)), w).
Proof. reflexivity. Qed.
End GatherFacts.

(** ** From the batch to the dictionary *)

Lemma skipn_nth {A : Type} (l : list A) i x :
  nth_error l i = Some x -> skipn i l = x :: skipn (S i) l.
Proof.
  revert i. induction l as [|y l IH]; intros [|i]; simpl; try discriminate.
  - now intros [= ->].
  - intros H. now rewrite (IH i H).
Qed.

Lemma map_fst_combine_le {A B : Type} (l : list A) (l' : list B) :
  (List.length l <= List.length l')%nat -> map fst (combine l l') = l.
Proof.
  revert l'. induction l as [|x l IH]; intros [|y l']; simpl; intros H; auto; try lia.
  f_equal. apply IH. lia.
Qed.

Section ReshapeFacts.
Variable decimal : Type.
Variable Decimal : string -> option decimal.

Lemma index_by_pod_run result names : forall i acc w,
  (i + List.length names <= List.length result)%nat ->
  index_by_pod result i names acc w =
    (inr (assign_all acc (combine names (skipn i result))), w).
Proof.
  induction names as [|pod names IH]; intros i acc w Hlen; simpl.
  - reflexivity.
  - simpl in Hlen.
    destruct (nth_error result i) as [r|] eqn:E.
    + rewrite (skipn_nth _ _ _ E). simpl. rewrite IH by lia. reflexivity.
    + apply nth_error_None in E. lia.
Qed.

Lemma convert_run vals : forall w,
  exists w',
    mapM (fun '(_, value) => to_decimal Decimal value) vals w =
      (match convert_all Decimal vals with
       | Some ds => inr ds
       | None => inl conversion_error
       end, w') /\
    conversions_only w w'.
Proof.
  induction vals as [|[t value] vals IH]; intros w; simpl.
  - exists w. split; [reflexivity | apply conversions_only_refl].
  - unfold bind at 1. unfold to_decimal at 1. unfold bind, emit. simpl.
    assert (Hlog : conversions_only w (log (ToDecimal value) w)).
    { repeat split. exists [value]. reflexivity. }
    destruct (Decimal value) as [d|]; simpl.
    + destruct (IH (log (ToDecimal value) w)) as (w' & Hr & Hw).
      unfold bind in Hr. rewrite Hr. exists w'.
      split; [|eapply conversions_only_trans; eauto].
      destruct (convert_all Decimal vals); reflexivity.
    + exists (log (ToDecimal value) w). split; [reflexivity | exact Hlog].
Qed.

Lemma extract_fold pr : forall acc w,
  NoDup (keys pr) ->
  (forall k, In k (keys pr) -> ~ In k (keys acc)) ->
  exists w',
    foldM (fun acc '(pod, pod_result) =>
             if non_empty pod_result then
               samples <- samples_of Decimal pod_result ;;
               ret (set acc pod samples)
             else ret acc) pr acc w =
      (match extracted Decimal pr with
       | Some d => inr (acc ++ d)
       | None => inl conversion_error
       end, w') /\
    conversions_only w w'.
Proof.
  induction pr as [|[pod pod_result] pr IH]; intros acc w Hnd Hdis; simpl.
  - exists w. split; [now rewrite app_nil_r | apply conversions_only_refl].
  - inversion Hnd as [|? ? Hpod Hnd']; subst.
    destruct pod_result as [|first others]; simpl.
    + unfold bind at 1. simpl. apply IH; auto.
      intros k Hk. apply Hdis. simpl. auto.
    + unfold bind at 1. unfold bind at 1.
      destruct (convert_run (values first) w) as (w' & Hr & Hw).
      rewrite Hr.
      destruct (convert_all Decimal (values first)) as [ds|].
      * assert (Hfresh : ~ In pod (keys acc)) by (apply Hdis; simpl; auto).
        unfold ret at 1. rewrite (set_fresh acc pod ds Hfresh).
        destruct (IH (acc ++ [(pod, ds)]) w' Hnd') as (w'' & Hr' & Hw').
        { intros k Hk. unfold keys. rewrite map_app, in_app_iff. simpl.
          intros [H|[<-|[]]]; [|contradiction].
          apply (Hdis k); simpl; auto. }
        exists w''. split; [|eapply conversions_only_trans; eauto].
        rewrite Hr'. destruct (extracted Decimal pr); [|reflexivity].
        now rewrite <- app_assoc.
      * exists w'. split; [reflexivity | exact Hw].
Qed.

Lemma extracted_keys pr d :
  extracted Decimal pr = Some d ->
  keys d = keys (filter (fun kv => non_empty (snd kv)) pr).
Proof.
  revert d. induction pr as [|[pod [|first others]] pr IH]; simpl; intros d H.
  - now injection H as <-.
  - auto.
  - destruct (convert_all Decimal (values first)); [|discriminate].
    destruct (extracted Decimal pr) as [d'|]; [|discriminate].
    injection H as <-. simpl. f_equal. auto.
Qed.

Lemma filter_keys_incl (pr : dict (list series)) f k :
  In k (keys (filter f pr)) -> In k (keys pr).
Proof.
  unfold keys. rewrite !in_map_iff. intros (x & Hx & Hin).
  apply filter_In in Hin. exists x. tauto.
Qed.

Lemma extracted_get pr d pod :
  NoDup (keys pr) ->
  extracted Decimal pr = Some d ->
  get d pod =
    match get pr pod with
    | Some (first :: _) => convert_all Decimal (values first)
    | _ => None
    end.
Proof.
  revert d. induction pr as [|[k [|first others]] pr IH]; simpl; intros d Hnd H.
  - now injection H as <-.
  - inversion Hnd as [|? ? Hk Hnd']; subst.
    destruct (String.eqb k pod) eqn:E; [|auto].
    apply String.eqb_eq in E. subst k.
    apply get_None. intros Hin. apply Hk.
    rewrite (extracted_keys _ _ H) in Hin. eapply filter_keys_incl; eauto.
  - inversion Hnd as [|? ? Hk Hnd']; subst.
    destruct (convert_all Decimal (values first)) as [ds|] eqn:C; [|discriminate].
    destruct (extracted Decimal pr) as [d'|] eqn:X; [|discriminate].
    injection H as <-. simpl.
    destruct (String.eqb k pod); auto.
Qed.

Lemma filter_keys_get (pr : dict (list series)) (P : list series -> bool) :
  NoDup (keys pr) ->
  keys (filter (fun kv => P (snd kv)) pr) =
    filter (fun k => P (match get pr k with Some v => v | None => [] end)) (keys pr).
Proof.
  induction pr as [|[k v] pr IH]; intros Hnd; simpl; auto.
  inversion Hnd as [|? ? Hk Hnd']; subst.
  rewrite String.eqb_refl.
  assert (Hext : filter (fun k0 => P (match (if String.eqb k k0 then Some v else get pr k0) with
                                      | Some v0 => v0 | None => [] end)) (keys pr)
                 = filter (fun k0 => P (match get pr k0 with Some v0 => v0 | None => [] end)) (keys pr)).
  { apply filter_ext_in. intros k0 Hin.
    destruct (String.eqb k k0) eqn:E; auto.
    apply String.eqb_eq in E. subst. contradiction. }
  rewrite Hext. destruct (P v); simpl; rewrite IH by assumption; reflexivity.
Qed.

Lemma reshape_run object result w :
  List.length result = List.length (pods object) ->
  exists w',
    reshape Decimal object result w =
      (match extracted Decimal (assign_all empty (combine (pods object) result)) with
       | Some d => inr d
       | None => inl conversion_error
       end, w') /\
    conversions_only w w'.
Proof.
  intros Hlen. unfold reshape.
  destruct result as [|r result]; cbn [non_empty negb].
  - destruct (pods object); [|discriminate]. simpl.
    exists w. split; [reflexivity | apply conversions_only_refl].
  - unfold bind. rewrite index_by_pod_run by (simpl in *; lia).
    simpl skipn. unfold extract, items.
    apply (extract_fold _ empty w).
    + rewrite keys_assign_all. simpl. apply fresh_NoDup.
    + intros k _ [].
Qed.
End ReshapeFacts.

Lemma get_In {V : Type} (d : dict V) k v : get d k = Some v -> In (k, v) d.
Proof.
  induction d as [|[k' v'] d IH]; simpl; [discriminate|].
  destruct (String.eqb k' k) eqn:E.
  - apply String.eqb_eq in E. intros [= ->]. subst. auto.
  - auto.
Qed.

Lemma keys_rev_combine (names : list string) (result : list (list series)) k :
  In k (keys (rev (combine names result))) -> In k names.
Proof.
  unfold keys. rewrite map_rev, <- in_rev, in_map_iff.
  intros ([k' v] & <- & Hin). simpl. eapply in_combine_l; eauto.
Qed.

Lemma last_occurrence (names : list string) : forall (result : list (list series)) i pod r,
  nth_error names i = Some pod ->
  (forall j, (i < j)%nat -> nth_error names j <> Some pod) ->
  nth_error result i = Some r ->
  get (rev (combine names result)) pod = Some r.
Proof.
  induction names as [|n names IH]; intros result i pod r Hn Hlast Hr.
  - destruct i; discriminate.
  - destruct result as [|r0 result]; [destruct i; discriminate|].
    simpl. rewrite get_app. destruct i as [|i]; simpl in *.
    + injection Hn as ->. injection Hr as ->.
      assert (Hnone : get (rev (combine names result)) pod = None).
      { apply get_None. intros Hin. apply keys_rev_combine in Hin.
        apply In_nth_error in Hin. destruct Hin as (j & Hj).
        apply (Hlast (S j)); [lia | exact Hj]. }
      rewrite Hnone. simpl. now rewrite String.eqb_refl.
    + rewrite (IH result i pod r Hn); auto.
      intros j Hj. apply (Hlast (S j)). lia.
Qed.

Lemma assign_all_In {V : Type} (pairs : list (string * V)) : forall acc k v,
  In (k, v) (assign_all acc pairs) -> In (k, v) acc \/ In (k, v) pairs.
Proof.
  induction pairs as [|[k0 v0] pairs IH]; intros acc k v; simpl; auto.
  unfold assign_all in *. simpl. intros H. apply IH in H.
  destruct H as [H|H]; auto.
  assert (Hset : forall d : dict V, In (k, v) (set d k0 v0) -> In (k, v) d \/ (k0, v0) = (k, v)).
  { clear. induction d as [|[k' v'] d IHd]; simpl.
    - intros [H|[]]; auto.
    - destruct (String.eqb k' k0) eqn:E; simpl.
      + apply String.eqb_eq in E. subst. intros [H|H]; auto.
      + intros [H|H]; auto. apply IHd in H. tauto. }
  apply Hset in H. tauto.
Qed.

Lemma assign_all_distinct {V : Type} (pairs : list (string * V)) : forall acc,
  NoDup (map fst pairs) ->
  (forall k, In k (map fst pairs) -> ~ In k (keys acc)) ->
  assign_all acc pairs = acc ++ pairs.
Proof.
  induction pairs as [|[k v] pairs IH]; intros acc Hnd Hdis; simpl.
  - now rewrite app_nil_r.
  - inversion Hnd as [|? ? Hk Hnd']; subst.
    unfold assign_all in *. simpl.
    rewrite set_fresh by (apply Hdis; simpl; auto).
    rewrite IH; auto.
    + now rewrite <- app_assoc.
    + intros k' Hk'. unfold keys. rewrite map_app, in_app_iff. simpl.
      intros [H|[<-|[]]]; [|contradiction]. apply (Hdis k'); simpl; auto.
Qed.

Lemma convert_all_map {decimal : Type} (Decimal : string -> option decimal) vals ds :
  convert_all Decimal vals = Some ds <-> map Decimal (map snd vals) = map Some ds.
Proof.
  revert ds. induction vals as [|[t v] vals IH]; intros ds; simpl.
  - split.
    + now intros [= <-].
    + destruct ds; [reflexivity | discriminate].
  - destruct (Decimal v) as [d|] eqn:E.
    + destruct (convert_all Decimal vals) as [ds'|].
      * split.
        -- intros [= <-]. simpl. f_equal. now apply IH.
        -- destruct ds as [|d0 ds]; [discriminate|]. simpl. intros [= -> H].
           apply IH in H. now injection H as ->.
      * split; [discriminate|].
        destruct ds as [|d0 ds]; [discriminate|]. simpl. intros [= -> H].
        apply IH in H. discriminate.
    + split; [discriminate|].
      destruct ds as [|d0 ds]; discriminate.
Qed.

Section GatherTheorems.
Variable now : nat -> Z.
Variable custom_query_range :
  CustomPrometheusConnect -> nat -> range_request -> completion.
Variable decimal : Type.
Variable Decimal : string -> option decimal.
Variable ApiClient : Type.

Local Abbreviation gather := (gather_data now custom_query_range Decimal).
Local Abbreviation answers := (batch now custom_query_range).

Lemma extracted_get_some pr (d : dict (list decimal)) pod first others :
  NoDup (keys pr) ->
  extracted Decimal pr = Some d ->
  get pr pod = Some (first :: others) ->
  exists samples,
    get d pod = Some samples /\ convert_all Decimal (values first) = Some samples.
Proof.
  intros Hnd Hx Hg. pose proof (extracted_get _ Decimal pr d pod Hnd Hx) as H.
  rewrite Hg in H.
  assert (Hin : In pod (keys d)).
  { rewrite (extracted_keys _ _ _ _ Hx). unfold keys. apply in_map_iff.
    exists (pod, first :: others). split; [reflexivity|].
    apply filter_In. split; [now apply get_In | reflexivity]. }
  destruct (get d pod) as [samples|] eqn:G.
  - exists samples. auto.
  - exfalso. apply get_None in G. contradiction.
Qed.

Lemma gather_data_run (self : PrometheusLoader ApiClient) object resource period timeframe w :
  supported resource = true ->
  exists w',
    gather self object resource period timeframe w =
      (match first_failure (answers self object resource period timeframe w) with
       | Some (_, e) => inl e
       | None =>
           match extracted Decimal
                   (assign_all empty
                      (combine (pods object)
                         (returned (answers self object resource period timeframe w)))) with
           | Some d => inr d
           | None => inl conversion_error
           end
       end, w') /\
    conversions_only (after_fetch now object resource period timeframe w) w'.
Proof.
  intros Hs. unfold gather_data, bind. rewrite fetch_run by assumption.
  destruct (first_failure _) as [[t e]|] eqn:F.
  - eexists. split; [reflexivity | apply conversions_only_refl].
  - apply reshape_run. rewrite returned_length by assumption. apply batch_length.
Qed.

Lemma gather_data_unsupported (self : PrometheusLoader ApiClient) object shown period timeframe w :
  gather self object (Unsupported shown) period timeframe w =
    (inl (ValueError ("Unknown resource type: " ++ shown)), w).
Proof. reflexivity. Qed.

Lemma gather_data_inversion (self : PrometheusLoader ApiClient) object resource period timeframe w d :
  result_of (gather self object resource period timeframe w) = inr d ->
  supported resource = true /\
  first_failure (answers self object resource period timeframe w) = None /\
  extracted Decimal
    (assign_all empty
       (combine (pods object)
          (returned (answers self object resource period timeframe w)))) = Some d.
Proof.
  intros H. destruct (supported resource) eqn:Hs.
  - destruct (gather_data_run self object resource period timeframe w Hs) as (w' & Hrun & _).
    rewrite Hrun in H. unfold result_of in H. simpl in H.
    destruct (first_failure _) as [[t e]|]; [discriminate|].
    destruct (extracted _ _) as [d'|]; [|discriminate].
    injection H as <-. auto.
  - destruct resource; discriminate.
Qed.

Lemma gather_data_trace (self : PrometheusLoader ApiClient) object resource period timeframe w :
  exists strs,
    new_events (gather self object resource period timeframe w) w =
      map QueryRange
        (if supported resource then
           requests_from now (query_of object resource) period timeframe
             (clock_reads w) (pods object)
         else [])
      ++ map ToDecimal strs.
Proof.
  destruct (supported resource) eqn:Hs.
  - destruct (gather_data_run self object resource period timeframe w Hs)
      as (w' & Hrun & _ & _ & strs & Htr).
    exists strs. rewrite Hrun. apply new_events_pair.
    rewrite Htr. simpl. now rewrite app_assoc.
  - destruct resource; try discriminate. exists []. 
    rewrite gather_data_unsupported. apply new_events_pair. simpl. now rewrite app_nil_r.
Qed.

Lemma range_queries_app evs evs' :
  range_queries (evs ++ evs') = range_queries evs ++ range_queries evs'.
Proof. unfold range_queries. apply flat_map_app. Qed.

Lemma range_queries_sent reqs : range_queries (map QueryRange reqs) = reqs.
Proof. induction reqs; simpl; f_equal; auto. Qed.

Lemma range_queries_conversions strs : range_queries (map ToDecimal strs) = [].
Proof. induction strs; simpl; auto. Qed.

Lemma gather_data_queries (self : PrometheusLoader ApiClient) object resource period timeframe w :
  range_queries (new_events (gather self object resource period timeframe w) w) =
    if supported resource then
      requests_from now (query_of object resource) period timeframe
        (clock_reads w) (pods object)
    else [].
Proof.
  destruct (gather_data_trace self object resource period timeframe w) as (strs & ->).
  rewrite range_queries_app, range_queries_sent, range_queries_conversions.
  apply app_nil_r.
Qed.
End GatherTheorems.

(** ** The claims on [gather_data] *)

Lemma structurally_empty_returned cs :
  structurally_empty cs ->
  first_failure cs = None /\ (forall r, In r (returned cs) -> r = []).
Proof.
  unfold structurally_empty, returned.
  induction cs as [|c cs IH]; intros H; simpl.
  - split; [reflexivity | intros r []].
  - rewrite (H c (or_introl eq_refl)).
    destruct IH as [F Hr]; [intros c' Hc'; apply H; now right|].
    rewrite F. split; [reflexivity|].
    simpl. intros r [<-|Hin]; auto.
Qed.

Lemma extract_all_empty {decimal : Type} (Decimal : string -> option decimal)
    (pr : dict (list series)) : forall acc w,
  (forall k v, In (k, v) pr -> v = []) ->
  foldM (fun acc '(pod, pod_result) =>
           if non_empty pod_result then
             samples <- samples_of Decimal pod_result ;;
             ret (set acc pod samples)
           else ret acc) pr acc w = (inr acc, w).
Proof.
  induction pr as [|[k v] pr IH]; intros acc w H; simpl; [reflexivity|].
  rewrite (H k v (or_introl eq_refl)). simpl. unfold bind at 1. simpl.
  apply IH. intros k' v' Hin. apply (H k' v'). now right.
Qed.

Lemma reshape_all_empty {decimal : Type} (Decimal : string -> option decimal)
    object result w :
  (forall r, In r result -> r = []) ->
  List.length result = List.length (pods object) ->
  reshape Decimal object result w = (inr empty, w).
Proof.
  intros Hr Hlen. unfold reshape.
  destruct result as [|r result]; cbn [non_empty negb].
  - destruct (pods object); [reflexivity | discriminate].
  - unfold bind. rewrite index_by_pod_run by (simpl in *; lia).
    simpl skipn. unfold extract, items.
    apply extract_all_empty. intros k v Hin.
    apply assign_all_In in Hin. destruct Hin as [[]|Hin].
    apply in_combine_r in Hin. auto.
Qed.

Section GatherClaims.
Variable now : nat -> Z.
Variable custom_query_range :
  CustomPrometheusConnect -> nat -> range_request -> completion.
Variable decimal : Type.
Variable Decimal : string -> option decimal.
Variable ApiClient : Type.

Local Abbreviation gather := (gather_data now custom_query_range Decimal).
Local Abbreviation answers := (batch now custom_query_range).

(** C1, as amended.  The keys of the dictionary a successful call
    returns are the distinct pod names, in the order of their first
    occurrence, whose result (the one at the last occurrence of the
    name) is not empty.  There are at most as many keys as pods, and a
    pod whose result is empty is absent from the dictionary. *)
Theorem returned_keys
    (self : PrometheusLoader ApiClient) object resource period timeframe w d :
  result_of (gather self object resource period timeframe w) = inr d ->
  exists result,
    map outcome (answers self object resource period timeframe w) = map inr result /\
    keys d = filter (fun pod => non_empty (last_result (pods object) result pod))
               (uniq (pods object)) /\
    NoDup (keys d) /\
    (List.length (keys d) <= List.length (pods object))%nat /\
    (forall pod, last_result (pods object) result pod = [] -> get d pod = None) /\
    (NoDup (pods object) ->
     keys d = keys (filter (fun kv => non_empty (snd kv)) (combine (pods object) result))).
Proof.
  intros H.
  destruct (gather_data_inversion now custom_query_range _ Decimal _ _ _ _ _ _ _ _ H)
    as (Hs & Hff & Hx).
  set (result := returned (answers self object resource period timeframe w)) in *.
  assert (Hlen : List.length result = List.length (pods object)).
  { subst result. rewrite returned_length by assumption. apply batch_length. }
  assert (Hkeys : keys d = filter (fun pod => non_empty (last_result (pods object) result pod))
                             (uniq (pods object))).
  { rewrite (extracted_keys _ _ _ _ Hx).
    rewrite (filter_keys_get _ (@non_empty series)).
    - rewrite keys_assign_all. simpl. rewrite map_fst_combine_le by lia.
      apply filter_ext. intros k. rewrite get_assign_all. unfold last_result.
      destruct (get (rev (combine (pods object) result)) k); reflexivity.
    - rewrite keys_assign_all. simpl. apply fresh_NoDup. }
  exists result. split; [|split; [|split; [|split; [|split]]]].
  - now apply first_failure_None.
  - exact Hkeys.
  - rewrite Hkeys. apply NoDup_filter, uniq_NoDup.
  - rewrite Hkeys. etransitivity; [apply filter_length_le|]. apply fresh_length.
  - intros pod Hempty. apply get_None. rewrite Hkeys. intros Hin.
    apply filter_In in Hin. destruct Hin as [_ Hne]. rewrite Hempty in Hne. discriminate.
  - intros Hnd. rewrite (extracted_keys _ _ _ _ Hx). f_equal. f_equal.
    rewrite assign_all_distinct.
    + reflexivity.
    + rewrite map_fst_combine_le by lia. exact Hnd.
    + intros k _ [].
Qed.

(** C4, as amended.  In the dictionary a successful call returns, a pod
    whose result is not empty (taken at the last position where its name
    occurs) is mapped to the [Decimal] of each value of the first series,
    in order, the timestamps being dropped.  In the scenario, two samples
    for p1 and an empty result for p2, the call returns the dictionary
    with the single key p1. *)
Theorem sample_values :
  (forall (self : PrometheusLoader ApiClient) object resource period timeframe w d
          i pod first others,
     result_of (gather self object resource period timeframe w) = inr d ->
     nth_error (pods object) i = Some pod ->
     (forall j, (i < j)%nat -> nth_error (pods object) j <> Some pod) ->
     option_map outcome (nth_error (answers self object resource period timeframe w) i)
       = Some (inr (first :: others)) ->
     exists samples,
       get d pod = Some samples /\
       map Decimal (map snd (values first)) = map Some samples) /\
  (forall (self : PrometheusLoader ApiClient) resource period timeframe w m t1 t2 d1 d2,
     supported resource = true ->
     (forall r, outcome (custom_query_range (prometheus self) (submitted w) r)
                = inr [{| metric := m; values := [(t1, "0.5"); (t2, "0.7")] |}]) ->
     (forall r, outcome (custom_query_range (prometheus self) (S (submitted w)) r) = inr []) ->
     Decimal "0.5" = Some d1 -> Decimal "0.7" = Some d2 ->
     result_of (gather self {| namespace := "ns1"; container := "c1"; pods := ["p1"; "p2"] |}
                  resource period timeframe w)
       = inr [("p1", [d1; d2])]).
Proof.
  split.
  - intros self object resource period timeframe w d i pod first others H Hi Hlast Hans.
    destruct (gather_data_inversion now custom_query_range _ Decimal _ _ _ _ _ _ _ _ H)
      as (Hs & Hff & Hx).
    set (result := returned (answers self object resource period timeframe w)) in *.
    assert (Hmap : map outcome (answers self object resource period timeframe w) = map inr result)
      by now apply first_failure_None.
    assert (Hr : nth_error result i = Some (first :: others)).
    { destruct (nth_error (answers self object resource period timeframe w) i) as [c|] eqn:E;
        [|discriminate].
      simpl in Hans. injection Hans as Hc.
      apply (map_nth_error outcome) in E. rewrite Hmap, Hc in E.
      rewrite nth_error_map in E.
      destruct (nth_error result i) as [r|]; [|discriminate].
      simpl in E. now injection E as ->. }
    destruct (extracted_get_some _ Decimal
                (assign_all empty (combine (pods object) result)) d pod first others)
      as (samples & Hg & Hc).
    + rewrite keys_assign_all. simpl. apply fresh_NoDup.
    + exact Hx.
    + rewrite get_assign_all.
      rewrite (last_occurrence _ _ _ _ _ Hi Hlast Hr). reflexivity.
    + exists samples. split; [exact Hg|]. now apply convert_all_map.
  - intros self resource period timeframe w m t1 t2 d1 d2 Hs H1 H2 Hd1 Hd2.
    destruct (gather_data_run now custom_query_range _ Decimal _ self
                {| namespace := "ns1"; container := "c1"; pods := ["p1"; "p2"] |}
                resource period timeframe w Hs) as (w' & Hrun & _).
    rewrite Hrun. unfold result_of, batch. simpl.
    rewrite H1, H2. simpl. rewrite Hd1, Hd2. reflexivity.
Qed.

Lemma gather_data_succeeds
    (self : PrometheusLoader ApiClient) object resource period timeframe w :
  supported resource = true ->
  first_failure (answers self object resource period timeframe w) = None ->
  (forall c first others,
     In c (answers self object resource period timeframe w) ->
     outcome c = inr (first :: others) ->
     convert_all Decimal (values first) <> None) ->
  exists d, result_of (gather self object resource period timeframe w) = inr d.
Proof.
  intros Hs Hff Hconv.
  destruct (gather_data_run now custom_query_range _ Decimal _ self object
              resource period timeframe w Hs) as (w' & Hrun & _).
  rewrite Hrun, Hff. unfold result_of. simpl.
  set (result := returned (answers self object resource period timeframe w)).
  assert (Hall : forall k first others,
             In (k, first :: others) (assign_all empty (combine (pods object) result)) ->
             convert_all Decimal (values first) <> None).
  { intros k first others Hin. apply assign_all_In in Hin.
    destruct Hin as [[]|Hin]. apply in_combine_r in Hin.
    apply first_failure_None in Hff. fold result in Hff.
    apply (in_map (@inr exn (list series))) in Hin. rewrite <- Hff in Hin.
    apply in_map_iff in Hin. destruct Hin as (c & Hc & Hin). eauto. }
  clearbody result. revert Hall.
  generalize (assign_all empty (combine (pods object) result)) as pr.
  induction pr as [|[k [|first others]] pr IH]; intros Hall; simpl.
  - eauto.
  - apply IH. intros; eapply Hall; simpl; eauto.
  - destruct (convert_all Decimal (values first)) as [ds|] eqn:C.
    + destruct IH as (d & Hd).
      { intros; eapply Hall; simpl; eauto. }
      destruct (extracted Decimal pr); [|discriminate]. eauto.
    + exfalso. eapply Hall; simpl; eauto.
Qed.

(** C2.  With a resource type that is neither [CPU] nor [Memory] the
    call raises the [ValueError] of the last branch, whatever the other
    arguments are, and leaves the world as it found it: nothing was
    sent. *)
Theorem unsupported_resource
    (self : PrometheusLoader ApiClient) object shown period timeframe w :
  gather self object (Unsupported shown) period timeframe w =
    (inl (ValueError ("Unknown resource type: " ++ shown)%string), w) /\
  new_events (gather self object (Unsupported shown) period timeframe w) w = [].
Proof.
  split; [reflexivity|]. apply new_events_pair. now rewrite app_nil_r.
Qed.

(** C3.  With an empty pod list and a supported resource type the call
    returns the empty dictionary, and submits no range query. *)
Theorem no_pods
    (self : PrometheusLoader ApiClient) object resource period timeframe w :
  pods object = [] ->
  supported resource = true ->
  gather self object resource period timeframe w = (inr empty, w) /\
  range_queries (new_events (gather self object resource period timeframe w) w) = [].
Proof.
  intros Hp Hs.
  assert (Hrun : gather self object resource period timeframe w = (inr empty, w)).
  { unfold gather_data, fetch, reshape, bind. rewrite Hp.
    destruct resource; try discriminate; reflexivity. }
  split; [exact Hrun|].
  rewrite Hrun. rewrite (new_events_pair _ _ w []) by now rewrite app_nil_r.
  reflexivity.
Qed.


(** C9.  When one of the per-pod queries of a call fails, the call
    raises: the exception is the one of the failing query that finished
    first, hence that very error when it is the only one, and no
    dictionary is returned. *)
Theorem failing_query_aborts
    (self : PrometheusLoader ApiClient) object resource period timeframe w c e :
  supported resource = true ->
  In c (answers self object resource period timeframe w) ->
  outcome c = inl e ->
  exists c' e',
    In c' (answers self object resource period timeframe w) /\
    outcome c' = inl e' /\
    (forall c2 e2, In c2 (answers self object resource period timeframe w) ->
                   outcome c2 = inl e2 -> (finished_at c' <= finished_at c2)%nat) /\
    result_of (gather self object resource period timeframe w) = inl e' /\
    ((forall c2 e2, In c2 (answers self object resource period timeframe w) ->
                    outcome c2 = inl e2 -> e2 = e) ->
     result_of (gather self object resource period timeframe w) = inl e).
Proof.
  intros Hs Hin Ho.
  destruct (first_failure_exists _ c e Hin Ho) as (t & e' & Hff).
  destruct (first_failure_Some _ t e' Hff) as (c' & Hin' & Ho' & Ht & Hmin).
  destruct (gather_data_run now custom_query_range _ Decimal _ self object
              resource period timeframe w Hs) as (w' & Hrun & _).
  exists c', e'. rewrite Hrun, Hff. unfold result_of. simpl.
  repeat split; auto.
  - intros c2 e2 Hc2 Ho2. rewrite Ht. eauto.
  - intros Huniq. f_equal. eauto.
Qed.

(** C6, as amended.  For a timeframe that is not negative (and under
    2^53 microseconds) every range query of a call carries, as its step,
    the floor of the timeframe in seconds over sixty, followed by the
    letter m; under one minute that is the step 0m. *)
Theorem step_parameter
    (self : PrometheusLoader ApiClient) object resource period timeframe w :
  (0 <= timeframe)%Z ->
  Timedelta.representable timeframe ->
  let sent := range_queries (new_events (gather self object resource period timeframe w) w) in
  Forall (fun r => step r =
                   (str_int (Qfloor (Timedelta.total_seconds timeframe / inject_Z 60)) ++ "m")%string)
    sent /\
  ((timeframe < Timedelta.of_minutes 1)%Z -> Forall (fun r => step r = "0m") sent) /\
  (supported resource = true -> List.length sent = List.length (pods object)).
Proof.
  intros H0 _ sent. subst sent. rewrite gather_data_queries.
  split; [|split].
  - apply Forall_forall. intros r Hin.
    rewrite <- TimedeltaFacts.step_of_nonneg by assumption.
    destruct (supported resource); [|destruct Hin].
    eapply requests_from_step; eauto.
  - intros H1. apply Forall_forall. intros r Hin.
    rewrite <- (TimedeltaFacts.step_of_short timeframe) by lia.
    destruct (supported resource); [|destruct Hin].
    eapply requests_from_step; eauto.
  - intros ->. apply requests_from_length.
Qed.
End GatherClaims.

(** * Further properties *)

(** ** The constructor *)

Section LoaderExtras.
Variable ApiClient : Type.
Variable new_client_from_config : string -> exn + ApiClient.
Variable find_url : list string -> option ApiClient -> option string.
Variable update_params_for_auth :
  ApiClient -> dict string -> dict string -> list string -> dict string.
Variable transport_get : get_request -> exn + response.

Local Abbreviation init :=
  (__init__ ApiClient new_client_from_config find_url update_params_for_auth transport_get).
Local Abbreviation check := (_check_prometheus_connection transport_get).
Local Abbreviation auth := (auth_headers ApiClient update_params_for_auth).
Local Abbreviation loaded := (client_of new_client_from_config).

Lemma init_check_result config cluster client w u hdrs :
  loaded cluster = inr client ->
  py_or (prometheus_url config) (find_url selectors client) = Some u ->
  truthy (Some u) = true ->
  result_of (auth config client w) = inr hdrs ->
  result_of (init config cluster w) =
    match result_of (check (connection_of config u hdrs) w) with
    | inl e => inl e
    | inr _ => inr (loader_of config client u hdrs)
    end.
Proof.
  intros Hl Hu Ht Ha.
  rewrite (init_found _ _ _ _ _ config cluster client w u Hl Hu Ht). cbv zeta.
  rewrite Ha. reflexivity.
Qed.

Lemma init_inversion config cluster w loader :
  result_of (init config cluster w) = inr loader ->
  exists client u hdrs,
    loaded cluster = inr client /\
    py_or (prometheus_url config) (find_url selectors client) = Some u /\
    truthy (Some u) = true /\
    result_of (auth config client w) = inr hdrs /\
    result_of (check (connection_of config u hdrs) w) = inr tt /\
    loader = loader_of config client u hdrs.
Proof.
  intros Hrun.
  destruct (loaded cluster) as [e|client] eqn:Hl.
  { rewrite (init_load_failure _ _ _ _ _ config cluster w e Hl) in Hrun. discriminate. }
  destruct (truthy (py_or (prometheus_url config) (find_url selectors client))) eqn:Ht.
  - destruct (truthy_true _ Ht) as (c & s & Hu).
    destruct (result_of (auth config client w)) as [e|hdrs] eqn:Ha.
    + rewrite (init_found _ _ _ _ _ config cluster client w (String c s) Hl Hu eq_refl)
        in Hrun.
      cbv zeta in Hrun. rewrite Ha in Hrun. discriminate.
    + rewrite (init_check_result config cluster client w (String c s) hdrs Hl Hu eq_refl Ha)
        in Hrun.
      destruct (result_of (check (connection_of config (String c s) hdrs) w))
        as [e|[]] eqn:Hc; [discriminate|].
      injection Hrun as <-.
      exists client, (String c s), hdrs. repeat split; auto.
  - rewrite (init_not_found _ _ _ _ _ config cluster client w Hl Ht) in Hrun.
    discriminate.
Qed.

Lemma auth_headers_cases config client w :
  result_of (auth config client w) =
    match prometheus_auth_header config with
    | Some (String c s) => inr [("Authorization", String c s)]
    | _ =>
        if inside_cluster config then inr []
        else match client with
             | Some api => inr (update_params_for_auth api [] [] ["BearerToken"])
             | None => inl (AttributeError
                              "'NoneType' object has no attribute 'update_params_for_auth'")
             end
    end.
Proof.
  unfold auth_headers.
  destruct (prometheus_auth_header config) as [[|c s]|];
    destruct (inside_cluster config); destruct client; reflexivity.
Qed.

(** X1.  The headers of the connection of a returned loader: the
    configured header alone, as [Authorization], when one is set; none
    inside the cluster; otherwise what the API client of the named cluster
    fills in for the bearer token, and then a cluster was named. *)
Theorem auth_header_precedence config cluster w loader :
  result_of (init config cluster w) = inr loader ->
  (forall h, prometheus_auth_header config = Some h -> truthy (Some h) = true ->
     headers (prometheus loader) = [("Authorization", h)]) /\
  (truthy (prometheus_auth_header config) = false -> inside_cluster config = true ->
     headers (prometheus loader) = []) /\
  (truthy (prometheus_auth_header config) = false -> inside_cluster config = false ->
     exists context api,
       cluster = Some context /\
       new_client_from_config context = inr api /\
       headers (prometheus loader) =
         update_params_for_auth api [] [] ["BearerToken"]).
Proof.
  intros Hrun.
  destruct (init_inversion config cluster w loader Hrun)
    as (client & u & hdrs & Hl & _ & _ & Ha & _ & ->).
  rewrite auth_headers_cases in Ha. simpl.
  split; [|split].
  - intros h Hh Ht. rewrite Hh in Ha. destruct h as [|c s]; [discriminate|].
    now injection Ha as <-.
  - intros Hf Hi. rewrite Hi in Ha.
    destruct (prometheus_auth_header config) as [[|c s]|]; simpl in Hf;
      try discriminate; now injection Ha as <-.
  - intros Hf Hi. rewrite Hi in Ha.
    assert (Hb : match client with
                 | Some api => inr (update_params_for_auth api [] [] ["BearerToken"])
                 | None => inl (AttributeError
                                  "'NoneType' object has no attribute 'update_params_for_auth'")
                 end = @inr exn _ hdrs).
    { destruct (prometheus_auth_header config) as [[|c s]|]; simpl in Hf;
        try discriminate; exact Ha. }
    destruct client as [api|]; [|discriminate].
    injection Hb as <-.
    unfold client_of in Hl. destruct cluster as [context|]; [|discriminate].
    destruct (new_client_from_config context) as [e|api'] eqn:Hn; [discriminate|].
    injection Hl as ->. exists context, api. auto.
Qed.

Lemma init_events config cluster client w :
  loaded cluster = inr client ->
  exists connecting,
    new_events (init config cluster w) w =
      (if truthy (prometheus_url config) then [] else [FindUrl selectors]) ++ connecting /\
    (connecting = [] \/
     exists u hdrs,
       py_or (prometheus_url config) (find_url selectors client) = Some u /\
       result_of (auth config client w) = inr hdrs /\
       connecting = [NewSession u; NewSession u;
                     SessionGet (liveness_request (connection_of config u hdrs))]) /\
    (forall loader, result_of (init config cluster w) = inr loader -> connecting <> []).
Proof.
  intros Hl.
  destruct (truthy (py_or (prometheus_url config) (find_url selectors client))) eqn:Ht.
  - destruct (truthy_true _ Ht) as (c & s & Hu).
    rewrite (init_found _ _ _ _ _ config cluster client w (String c s) Hl Hu eq_refl).
    cbv zeta.
    destruct (result_of (auth config client w)) as [e|hdrs] eqn:Ha.
    + exists []. rewrite app_nil_r.
      rewrite (new_events_pair _ _ w _ (resolution_events config w)).
      repeat split; auto. discriminate.
    + exists [NewSession (String c s); NewSession (String c s);
              SessionGet (liveness_request (connection_of config (String c s) hdrs))].
      rewrite (new_events_pair _ _ w
                 ((if truthy (prometheus_url config) then [] else [FindUrl selectors])
                    ++ [NewSession (String c s); NewSession (String c s);
                        SessionGet (liveness_request (connection_of config (String c s) hdrs))])).
      * repeat split.
        -- right. exists (String c s), hdrs. auto.
        -- discriminate.
      * simpl. rewrite resolution_events. rewrite <- !app_assoc. reflexivity.
  - rewrite (init_not_found _ _ _ _ _ config cluster client w Hl Ht).
    exists []. rewrite app_nil_r.
    rewrite (new_events_pair _ _ w _ (resolution_events config w)).
    repeat split; auto. discriminate.
Qed.

(** X3.  What a run of the constructor does, in order.  When the context
    of the named cluster cannot be loaded: nothing, the exception goes
    through.  Otherwise: discovery once, only without a configured URL;
    then either nothing more, or the two sessions mounted at the resolved
    URL (the one of the parent constructor and the pooled one) and one
    request, the liveness request with the resolved headers.  A returned
    loader has made that request, and a range query is never handed
    out. *)
Theorem constructor_events config cluster w :
  match loaded cluster with
  | inl e =>
      result_of (init config cluster w) = inl e /\
      new_events (init config cluster w) w = []
  | inr client =>
      exists connecting,
        new_events (init config cluster w) w =
          (if truthy (prometheus_url config) then [] else [FindUrl selectors])
            ++ connecting /\
        (connecting = [] \/
         exists u hdrs,
           py_or (prometheus_url config) (find_url selectors client) = Some u /\
           result_of (auth config client w) = inr hdrs /\
           connecting = [NewSession u; NewSession u;
                         SessionGet (liveness_request (connection_of config u hdrs))]) /\
        (forall loader, result_of (init config cluster w) = inr loader ->
                        connecting <> [])
  end /\
  range_queries (new_events (init config cluster w) w) = [].
Proof.
  destruct (loaded cluster) as [e|client] eqn:Hl.
  - rewrite (init_load_failure _ _ _ _ _ config cluster w e Hl).
    rewrite (new_events_pair _ _ w []) by now rewrite app_nil_r.
    repeat split.
  - destruct (init_events config cluster client w Hl) as (connecting & Hev & Hc & Hr).
    split; [exists connecting; auto|].
    rewrite Hev, range_queries_app.
    assert (H1 : range_queries (if truthy (prometheus_url config) then []
                                else [FindUrl selectors]) = []).
    { destruct (truthy (prometheus_url config)); reflexivity. }
    rewrite H1. destruct Hc as [->|(u & hdrs & _ & _ & ->)]; reflexivity.
Qed.

(** X2.  The liveness request verifies certificates exactly when
    [prometheus_ssl_enabled] is set, and so does the connection of a
    returned loader. *)
Theorem tls_verification config cluster w :
  (forall r, In (SessionGet r) (new_events (init config cluster w) w) ->
     get_verify r = prometheus_ssl_enabled config) /\
  (forall loader, result_of (init config cluster w) = inr loader ->
     ssl_verification (prometheus loader) = prometheus_ssl_enabled config).
Proof.
  split.
  - intros r Hin.
    destruct (loaded cluster) as [e|client] eqn:Hl.
    { rewrite (init_load_failure _ _ _ _ _ config cluster w e Hl) in Hin.
      rewrite (new_events_pair _ _ w []) in Hin by now rewrite app_nil_r.
      destruct Hin. }
    destruct (init_events config cluster client w Hl) as (connecting & Hev & Hc & _).
    rewrite Hev in Hin. apply in_app_or in Hin. destruct Hin as [Hin|Hin].
    + destruct (truthy (prometheus_url config)); [destruct Hin|].
      destruct Hin as [Hin|[]]. discriminate.
    + destruct Hc as [->|(u & hdrs & _ & _ & ->)]; [destruct Hin|].
      destruct Hin as [Hin|[Hin|[Hin|[]]]]; try discriminate.
      injection Hin as <-. simpl. apply negb_involutive.
  - intros loader Hrun.
    destruct (init_inversion config cluster w loader Hrun)
      as (client & u & hdrs & _ & _ & _ & _ & _ & ->).
    simpl. apply negb_involutive.
Qed.

Lemma check_uncaught p w e :
  transport_get (liveness_request p) = inl e -> caught e = false ->
  result_of (check p w) = inl e.
Proof.
  intros H Hc.
  unfold _check_prometheus_connection, try_except, bind, session_get.
  fold (liveness_request p). rewrite H. simpl. rewrite Hc. reflexivity.
Qed.

(** X4.  An exception of the liveness request that is neither a
    [ConnectionError] nor an [HTTPError], a read timeout for instance,
    leaves the check and the constructor as it is: it is not turned into
    [PrometheusNotFound]. *)
Theorem other_errors_propagate :
  (forall p w e,
     transport_get (liveness_request p) = inl e -> caught e = false ->
     result_of (check p w) = inl e) /\
  (forall config cluster client w u hdrs e,
     loaded cluster = inr client ->
     py_or (prometheus_url config) (find_url selectors client) = Some u ->
     truthy (Some u) = true ->
     result_of (auth config client w) = inr hdrs ->
     transport_get (liveness_request (connection_of config u hdrs)) = inl e ->
     caught e = false ->
     result_of (init config cluster w) = inl e).
Proof.
  split.
  - exact check_uncaught.
  - intros config cluster client w u hdrs e Hl Hu Ht Ha He Hc.
    rewrite (init_check_result config cluster client w u hdrs Hl Hu Ht Ha).
    now rewrite (check_uncaught _ w e He Hc).
Qed.

(** X5.  The constructor returns a loader exactly when the API client of
    the cluster, if one is named, is obtained, a URL is resolved, the
    headers are built and the liveness request gets a response whose
    status is outside 400 to 599. *)
Theorem construction_returns_iff config cluster w :
  (exists loader, result_of (init config cluster w) = inr loader) <->
  (exists client u hdrs resp,
     loaded cluster = inr client /\
     py_or (prometheus_url config) (find_url selectors client) = Some u /\
     truthy (Some u) = true /\
     result_of (auth config client w) = inr hdrs /\
     transport_get (liveness_request (connection_of config u hdrs)) = inr resp /\
     ok resp = true).
Proof.
  split.
  - intros (loader & Hrun).
    destruct (init_inversion config cluster w loader Hrun)
      as (client & u & hdrs & Hl & Hu & Ht & Ha & Hc & _).
    apply check_returns in Hc. destruct Hc as (resp & Hr & Hok).
    exists client, u, hdrs, resp. repeat (split; [assumption|]). assumption.
  - intros (client & u & hdrs & resp & Hl & Hu & Ht & Ha & Hr & Hok).
    rewrite (init_check_result config cluster client w u hdrs Hl Hu Ht Ha).
    assert (Hc : result_of (check (connection_of config u hdrs) w) = inr tt).
    { apply check_returns. eauto. }
    rewrite Hc. eauto.
Qed.

(** X15.  The headers are obtained exactly when a header is configured,
    or the loader runs inside the cluster, or there is an API client;
    otherwise the lookup on the absent client raises. *)
Theorem authentication_available config client w :
  (exists hdrs, result_of (auth config client w) = inr hdrs) <->
  (truthy (prometheus_auth_header config) = true \/
   inside_cluster config = true \/
   client <> None).
Proof.
  rewrite auth_headers_cases.
  destruct (prometheus_auth_header config) as [[|c s]|]; simpl;
    destruct (inside_cluster config); destruct client as [api|]; split;
    try (intros _; eauto; fail);
    try (intros _; right; right; discriminate);
    try (intros (hdrs & H); discriminate H);
    try (intros [H|[H|H]]; try discriminate; now contradiction H).
Qed.
End LoaderExtras.

(** ** The requests and the samples *)

Lemma requests_from_query now q period timeframe names : forall k,
  map query (requests_from now q period timeframe k names) = map q names.
Proof. induction names as [|pod names IH]; intros k; simpl; f_equal; auto. Qed.

Lemma requests_from_window now q period timeframe names : forall k r,
  In r (requests_from now q period timeframe k names) ->
  exists j, start_time r = (now j - period)%Z /\ end_time r = now (S j).
Proof.
  induction names as [|pod names IH]; simpl; intros k r; [tauto|].
  intros [<-|H]; [|eauto].
  exists k. split; reflexivity.
Qed.

Lemma convert_all_refused {decimal : Type} (Decimal : string -> option decimal) vals t v :
  In (t, v) vals -> Decimal v = None -> convert_all Decimal vals = None.
Proof.
  induction vals as [|[t0 v0] vals IH]; simpl; [tauto|].
  intros [H|H] Hv.
  - injection H as -> ->. now rewrite Hv.
  - destruct (Decimal v0); [|reflexivity]. now rewrite (IH H Hv).
Qed.

Lemma convert_all_strings {decimal : Type} (Decimal : string -> option decimal) v1 : forall v2,
  map snd v1 = map snd v2 -> convert_all Decimal v1 = convert_all Decimal v2.
Proof.
  induction v1 as [|[t1 s1] v1 IH]; intros [|[t2 s2] v2]; simpl; try discriminate; auto.
  intros [= -> H]. now rewrite (IH v2 H).
Qed.

Lemma extracted_refused {decimal : Type} (Decimal : string -> option decimal)
    pr pod first others :
  In (pod, first :: others) pr ->
  convert_all Decimal (values first) = None ->
  extracted Decimal pr = None.
Proof.
  induction pr as [|[k [|f o]] pr IH]; simpl; intros Hin Hc; [tauto| |].
  - destruct Hin as [H|H]; [discriminate|]. auto.
  - destruct Hin as [H|H].
    + injection H as _ -> _. now rewrite Hc.
    + destruct (convert_all Decimal (values f)); [|reflexivity].
      now rewrite (IH H Hc).
Qed.

Lemma set_alike d1 d2 k v1 v2 :
  alike d1 d2 -> sample_strings v1 = sample_strings v2 ->
  alike (set d1 k v1) (set d2 k v2).
Proof.
  intros H Hv. induction H as [|[k1 x1] [k2 x2] d1 d2 [Hk Hx] H IH]; simpl in *.
  - constructor; [split; auto | constructor].
  - subst k2. destruct (String.eqb k1 k).
    + constructor; [split; auto | exact H].
    + constructor; [split; auto | exact IH].
Qed.

Lemma assign_all_alike names : forall r1 r2 d1 d2,
  alike d1 d2 ->
  Forall2 (fun a b => sample_strings a = sample_strings b) r1 r2 ->
  alike (assign_all d1 (combine names r1)) (assign_all d2 (combine names r2)).
Proof.
  induction names as [|n names IH]; intros r1 r2 d1 d2 Hd Hr; simpl; auto.
  destruct Hr as [|a b r1 r2 Hab Hr]; simpl; auto.
  unfold assign_all in *. simpl. apply IH; auto. now apply set_alike.
Qed.

Lemma extracted_alike {decimal : Type} (Decimal : string -> option decimal) d1 d2 :
  alike d1 d2 -> extracted Decimal d1 = extracted Decimal d2.
Proof.
  intros H. induction H as [|[k1 x1] [k2 x2] d1 d2 [Hk Hx] H IH]; simpl in *; auto.
  subst k2. destruct x1 as [|f1 o1], x2 as [|f2 o2]; simpl in Hx; try discriminate; auto.
  injection Hx as Hx. rewrite (convert_all_strings Decimal _ _ Hx), IH. reflexivity.
Qed.

Lemma same_samples_returned cs1 cs2 :
  Forall2 same_samples cs1 cs2 ->
  first_failure cs1 = None /\ first_failure cs2 = None /\
  Forall2 (fun a b => sample_strings a = sample_strings b) (returned cs1) (returned cs2).
Proof.
  intros H. induction H as [|c1 c2 cs1 cs2 (r1 & r2 & H1 & H2 & Hs) H (IH1 & IH2 & IH3)].
  - repeat split. constructor.
  - unfold returned in *. simpl. rewrite H1, H2, IH1, IH2. simpl.
    repeat split. constructor; auto.
Qed.

Section GatherExtras.
Variable now : nat -> Z.
Variable custom_query_range :
  CustomPrometheusConnect -> nat -> range_request -> completion.
Variable decimal : Type.
Variable Decimal : string -> option decimal.
Variable ApiClient : Type.

Local Abbreviation gather := (gather_data now custom_query_range Decimal).
Local Abbreviation answers := (batch now custom_query_range).

(** X6.  A call with a supported resource type whose start times are
    datetimes reads the clock twice per pod, whatever the answers are;
    when every query returns, one range query per pod was made, and the
    queries are those of the pods, in the order of [object.pods]. *)
Theorem effects_of_a_call
    (self : PrometheusLoader ApiClient) object resource period timeframe w :
  supported resource = true ->
  window_fits now period (clock_reads w) (List.length (pods object)) ->
  let run := gather self object resource period timeframe w in
  clock_reads (snd run) = (clock_reads w + 2 * List.length (pods object))%nat /\
  (first_failure (answers self object resource period timeframe w) = None ->
   submitted (snd run) = (submitted w + List.length (pods object))%nat /\
   map query (range_queries (new_events run w))
     = map (query_of object resource) (pods object)).
Proof.
  intros Hs _ run. subst run.
  rewrite gather_data_queries, Hs, requests_from_query.
  destruct (gather_data_run now custom_query_range _ Decimal _ self object
              resource period timeframe w Hs) as (w' & Hrun & Hc & Hq & _).
  rewrite Hrun. simpl. rewrite Hc, Hq. repeat split.
Qed.

(** X7.  With a clock that does not go back and a period that is not
    negative, every range query of a call asks for a window that ends no
    earlier than it starts and spans at least the period. *)
Theorem query_window
    (self : PrometheusLoader ApiClient) object resource period timeframe w :
  (forall k, (now k <= now (S k))%Z) ->
  (0 <= period)%Z ->
  Forall (fun r => (start_time r <= end_time r)%Z /\
                   (period <= end_time r - start_time r)%Z)
    (range_queries (new_events (gather self object resource period timeframe w) w)).
Proof.
  intros Hmono Hp. rewrite gather_data_queries. apply Forall_forall. intros r Hin.
  destruct (supported resource); [|destruct Hin].
  apply requests_from_window in Hin. destruct Hin as (j & -> & ->).
  specialize (Hmono j). lia.
Qed.

(** X8.  The exceptions of a call whose start times are datetimes: the
    [ValueError] of an unsupported resource type, or the exception of one
    of its range queries, or, when every query returned, the error of
    [Decimal] on a value.  The indexing of lines 156 and 158 never
    raises. *)
Theorem errors_raised
    (self : PrometheusLoader ApiClient) object resource period timeframe w e :
  window_fits now period (clock_reads w) (List.length (pods object)) ->
  result_of (gather self object resource period timeframe w) = inl e ->
  (exists shown,
     resource = Unsupported shown /\
     e = ValueError ("Unknown resource type: " ++ shown)%string) \/
  (supported resource = true /\
   exists c, In c (answers self object resource period timeframe w) /\
             outcome c = inl e) \/
  (supported resource = true /\
   first_failure (answers self object resource period timeframe w) = None /\
   e = conversion_error).
Proof.
  intros _ H. destruct (supported resource) eqn:Hs.
  - right.
    destruct (gather_data_run now custom_query_range _ Decimal _ self object
                resource period timeframe w Hs) as (w' & Hrun & _).
    rewrite Hrun in H. unfold result_of in H. simpl in H.
    destruct (first_failure _) as [[t e']|] eqn:F.
    + left. injection H as <-.
      destruct (first_failure_Some _ _ _ F) as (c & Hin & Ho & _). eauto.
    + right. destruct (extracted _ _); [discriminate|]. injection H as <-. auto.
  - left. destruct resource as [| |shown]; try discriminate.
    exists shown. split; [reflexivity|].
    rewrite gather_data_unsupported in H. now injection H as <-.
Qed.

(** X9.  When every query returned and the first series of a pod (at the
    last position of its name) holds a value [Decimal] refuses, the call
    raises the conversion error: the samples of the other pods are lost
    with it. *)
Theorem refused_value_aborts
    (self : PrometheusLoader ApiClient) object resource period timeframe w
    i pod first others t v :
  supported resource = true ->
  first_failure (answers self object resource period timeframe w) = None ->
  nth_error (pods object) i = Some pod ->
  (forall j, (i < j)%nat -> nth_error (pods object) j <> Some pod) ->
  option_map outcome (nth_error (answers self object resource period timeframe w) i)
    = Some (inr (first :: others)) ->
  In (t, v) (values first) ->
  Decimal v = None ->
  result_of (gather self object resource period timeframe w) = inl conversion_error.
Proof.
  intros Hs Hff Hi Hlast Hans Hin Hv.
  destruct (gather_data_run now custom_query_range _ Decimal _ self object
              resource period timeframe w Hs) as (w' & Hrun & _).
  rewrite Hrun, Hff. unfold result_of. simpl.
  set (result := returned (answers self object resource period timeframe w)).
  assert (Hmap : map outcome (answers self object resource period timeframe w)
                 = map inr result) by now apply first_failure_None.
  assert (Hr : nth_error result i = Some (first :: others)).
  { destruct (nth_error (answers self object resource period timeframe w) i) as [c|] eqn:E;
      [|discriminate].
    simpl in Hans. injection Hans as Hc.
    apply (map_nth_error outcome) in E. rewrite Hmap, Hc in E.
    rewrite nth_error_map in E.
    destruct (nth_error result i) as [r|]; [|discriminate].
    simpl in E. now injection E as ->. }
  rewrite (extracted_refused Decimal _ pod first others); [reflexivity| |].
  - apply get_In. rewrite get_assign_all.
    now rewrite (last_occurrence _ _ _ _ _ Hi Hlast Hr).
  - eapply convert_all_refused; eauto.
Qed.

(** X10.  The result of a call depends on the answers only through the
    value strings of the first series of each pod: the order in which the
    answers arrive, the timestamps, the labels and the further series do
    not matter. *)
Theorem samples_alone_decide
    (other : CustomPrometheusConnect -> nat -> range_request -> completion)
    (self : PrometheusLoader ApiClient) object resource period timeframe w :
  supported resource = true ->
  Forall2 same_samples
    (answers self object resource period timeframe w)
    (batch now other self object resource period timeframe w) ->
  result_of (gather self object resource period timeframe w) =
  result_of (gather_data now other Decimal self object resource period timeframe w).
Proof.
  intros Hs H.
  destruct (same_samples_returned _ _ H) as (F1 & F2 & Hr).
  destruct (gather_data_run now custom_query_range _ Decimal _ self object
              resource period timeframe w Hs) as (w1 & Hrun1 & _).
  destruct (gather_data_run now other _ Decimal _ self object
              resource period timeframe w Hs) as (w2 & Hrun2 & _).
  rewrite Hrun1, Hrun2, F1, F2. unfold result_of. simpl.
  rewrite (extracted_alike Decimal _
             (assign_all empty
                (combine (pods object)
                   (returned (batch now other self object resource period timeframe w))))).
  - reflexivity.
  - apply assign_all_alike; [constructor | exact Hr].
Qed.

(** X11.  When the pod names are distinct and no answer is empty, the
    keys of the returned dictionary are the pods, in the order of
    [object.pods], and every pod has its samples. *)
Theorem all_pods_present
    (self : PrometheusLoader ApiClient) object resource period timeframe w d :
  result_of (gather self object resource period timeframe w) = inr d ->
  NoDup (pods object) ->
  (forall c, In c (answers self object resource period timeframe w) ->
             outcome c <> inr []) ->
  keys d = pods object /\
  forall pod, In pod (pods object) -> exists samples, get d pod = Some samples.
Proof.
  intros H Hnd Hne.
  destruct (gather_data_inversion now custom_query_range _ Decimal _ _ _ _ _ _ _ _ H)
    as (Hs & Hff & Hx).
  set (result := returned (answers self object resource period timeframe w)) in *.
  assert (Hlen : List.length result = List.length (pods object)).
  { subst result. rewrite returned_length by assumption. apply batch_length. }
  assert (Hall : forall r, In r result -> non_empty r = true).
  { intros r Hr. apply first_failure_None in Hff. fold result in Hff.
    apply (in_map (@inr exn (list series))) in Hr. rewrite <- Hff in Hr.
    apply in_map_iff in Hr. destruct Hr as (c & Hc & Hin).
    destruct r; [|reflexivity]. exfalso. exact (Hne c Hin Hc). }
  assert (Hkeys : keys d = pods object).
  { rewrite (extracted_keys _ _ _ _ Hx).
    rewrite assign_all_distinct.
    - simpl. rewrite forallb_filter_id.
      + unfold keys. apply map_fst_combine_le. lia.
      + apply forallb_forall. intros [k r] Hin. apply in_combine_r in Hin. simpl. auto.
    - rewrite map_fst_combine_le by lia. exact Hnd.
    - intros k _ []. }
  split; [exact Hkeys|].
  intros pod Hin. destruct (get d pod) as [samples|] eqn:G; eauto.
  apply get_None in G. rewrite Hkeys in G. contradiction.
Qed.

(** X12.  When a range query of a call fails, no value is converted:
    none of the events of the call is a conversion to [Decimal]. *)
Theorem failed_query_converts_nothing
    (self : PrometheusLoader ApiClient) object resource period timeframe w c e :
  supported resource = true ->
  In c (answers self object resource period timeframe w) ->
  outcome c = inl e ->
  Forall (fun ev => is_conversion ev = false)
    (new_events (gather self object resource period timeframe w) w).
Proof.
  intros Hs Hin Ho.
  destruct (first_failure_exists _ c e Hin Ho) as (t & e' & Hff).
  assert (Hrun : gather self object resource period timeframe w
                 = (inl e', after_fetch now object resource period timeframe w)).
  { unfold gather_data, bind. rewrite fetch_run by assumption. now rewrite Hff. }
  rewrite Hrun.
  rewrite (new_events_pair _ _ w
             (map QueryRange
                (requests_from now (query_of object resource) period timeframe
                   (clock_reads w) (pods object)))) by reflexivity.
  apply Forall_forall. intros ev Hev. apply in_map_iff in Hev.
  destruct Hev as (r & <- & _). reflexivity.
Qed.
End GatherExtras.

(** ** The step and the queries *)

(** X13.  A timeframe of m whole minutes, m not negative, plus less than
    a minute, the whole under 2^53 microseconds, gives the step m followed
    by the letter m: the seconds beyond the last whole minute are
    dropped. *)
Theorem step_whole_minutes (m r : Z) :
  (0 <= m)%Z -> (0 <= r < Timedelta.of_minutes 1)%Z ->
  Timedelta.representable (Timedelta.of_minutes m + r)%Z ->
  Timedelta.step_of (Timedelta.of_minutes m + r)%Z = (str_int m ++ "m")%string.
Proof.
  unfold Timedelta.of_minutes. intros Hm Hr _. unfold Timedelta.step_of.
  rewrite TimedeltaFacts.int_total_seconds by lia.
  rewrite Z.div_div by lia.
  replace (1000000 * 60)%Z with 60000000%Z by reflexivity.
  rewrite Z.div_add_l by lia. rewrite (Z.div_small r) by lia.
  now rewrite Z.add_0_r.
Qed.

Section StringFacts.
Lemma length_append (a b : string) :
  String.length (a ++ b) = (String.length a + String.length b)%nat.
Proof. induction a as [|c a IH]; simpl; auto. Qed.

Lemma append_inv_head (s a b : string) : (s ++ a = s ++ b)%string -> a = b.
Proof. induction s as [|c s IH]; simpl; intros H; auto. injection H as H. auto. Qed.

Lemma append_inv_tail (s : string) : forall a b : string, (a ++ s = b ++ s)%string -> a = b.
Proof.
  induction a as [|c a IH]; intros [|c' b] H; simpl in H.
  - reflexivity.
  - exfalso. apply (f_equal String.length) in H. simpl in H.
    rewrite length_append in H. lia.
  - exfalso. apply (f_equal String.length) in H. simpl in H.
    rewrite length_append in H. lia.
  - injection H as -> H. f_equal. auto.
Qed.

Lemma quoted_inj (a b : string) : quoted a = quoted b -> a = b.
Proof.
  unfold quoted. intros H. apply append_inv_head in H.
  now apply append_inv_tail in H.
Qed.
End StringFacts.

(** X14.  For one workload, two pods get the same CPU query only when
    they are the same pod, and likewise for the memory query; a CPU query
    is never a memory query. *)
Theorem queries_distinguish (object other : K8sObjectData) (pod pod' : string) :
  (cpu_query object pod = cpu_query object pod' <-> pod = pod') /\
  (memory_query object pod = memory_query object pod' <-> pod = pod') /\
  cpu_query object pod <> memory_query other pod'.
Proof.
  split; [|split].
  - split; [|now intros ->].
    unfold cpu_query. intros H.
    repeat (apply append_inv_head in H).
    apply append_inv_tail in H. now apply quoted_inj.
  - split; [|now intros ->].
    unfold memory_query. intros H.
    do 9 (apply append_inv_head in H).
    apply append_inv_tail in H. now apply quoted_inj.
  - unfold cpu_query, memory_query. simpl. discriminate.
Qed.

(** * Scenarios *)

(** C1, the claim as written fails: in the scenario the backend answers
    p2 with an empty result, and the returned dictionary has the single
    key p1; p2 is absent, not mapped to an empty list. *)
Lemma empty_response_pod_is_dropped :
  map outcome
    (batch Sample.now Sample.backend Sample.self Sample.workload CPU
       (Timedelta.of_days 30) Timedelta.default_timeframe initial_world)
    = [inr [{| metric := []; values := [(Sample.t1, "0.5"); (Sample.t2, "0.7")] |}];
       inr []] /\
  exists d,
    result_of Sample.scenario = inr d /\
    keys d = ["p1"] /\
    keys d <> pods Sample.workload /\
    get d "p2" = None.
Proof.
  split; [reflexivity|].
  exists [("p1", [Sample.half; Sample.seven_tenths])].
  repeat split; try reflexivity. discriminate.
Qed.

Lemma returned_keys_witness :
  result_of Sample.scenario = inr [("p1", [Sample.half; Sample.seven_tenths])] /\
  exists result,
    map outcome
      (batch Sample.now Sample.backend Sample.self Sample.workload CPU
         (Timedelta.of_days 30) Timedelta.default_timeframe initial_world)
      = map inr result /\
    keys [("p1", [Sample.half; Sample.seven_tenths])]
      = filter (fun pod => non_empty (last_result (pods Sample.workload) result pod))
          (uniq (pods Sample.workload)).
Proof.
  split; [reflexivity|].
  destruct (returned_keys Sample.now Sample.backend Sample.decimal Sample.Decimal
              Sample.ApiClient Sample.self Sample.workload CPU
              (Timedelta.of_days 30) Timedelta.default_timeframe initial_world
              [("p1", [Sample.half; Sample.seven_tenths])] eq_refl)
    as (result & Hmap & Hkeys & _).
  exists result. split; assumption.
Defined.

(** C4, the claim as written fails on its own example: the call returns
    the dictionary with the key p1 alone, which is not the dictionary that
    also maps p2 to the empty list. *)
Lemma scenario_omits_p2 :
  result_of Sample.scenario = inr [("p1", [Sample.half; Sample.seven_tenths])] /\
  result_of Sample.scenario
    <> inr [("p1", [Sample.half; Sample.seven_tenths]); ("p2", [])].
Proof. split; [reflexivity | discriminate]. Qed.

Lemma sample_values_witness :
  (exists samples,
     get [("p1", [Sample.half; Sample.seven_tenths])] "p1" = Some samples /\
     map Sample.Decimal ["0.5"; "0.7"] = map Some samples) /\
  Sample.Decimal "0.5" = Some Sample.half /\
  Sample.Decimal "0.7" = Some Sample.seven_tenths /\
  result_of Sample.scenario = inr [("p1", [Sample.half; Sample.seven_tenths])].
Proof.
  pose proof (sample_values Sample.now Sample.backend Sample.decimal Sample.Decimal
                Sample.ApiClient) as [Hgeneral Hscenario].
  split; [|split; [reflexivity|split; [reflexivity|]]].
  - apply (Hgeneral Sample.self Sample.workload CPU
             (Timedelta.of_days 30) Timedelta.default_timeframe initial_world
             [("p1", [Sample.half; Sample.seven_tenths])] 0%nat "p1"
             {| metric := []; values := [(Sample.t1, "0.5"); (Sample.t2, "0.7")] |} []).
    + reflexivity.
    + reflexivity.
    + intros [|[|j]] Hj; [inversion Hj | discriminate | destruct j; discriminate].
    + reflexivity.
  - apply (Hscenario Sample.self CPU (Timedelta.of_days 30) Timedelta.default_timeframe
             initial_world [] Sample.t1 Sample.t2 Sample.half Sample.seven_tenths);
      reflexivity.
Defined.

Lemma no_pods_witness :
  pods Sample.idle = [] /\
  gather_data Sample.now Sample.flaky Sample.Decimal Sample.self Sample.idle Memory
    (Timedelta.of_days 30) Timedelta.default_timeframe initial_world
    = (inr empty, initial_world).
Proof.
  split; [reflexivity|].
  apply (no_pods Sample.now Sample.flaky Sample.decimal Sample.Decimal Sample.ApiClient
           Sample.self Sample.idle Memory (Timedelta.of_days 30)
           Timedelta.default_timeframe initial_world); reflexivity.
Defined.



(** C6, the claim as written fails for a negative timeframe: minus thirty
    seconds is under one minute and the step sent is -1m, not 0m; and for
    minus half a second the step is 0m while the floor of the timeframe
    in seconds over sixty is -1. *)
Lemma negative_timeframe_step :
  (Timedelta.of_seconds (-30) < Timedelta.of_minutes 1)%Z /\
  map step (range_queries (new_events Sample.backwards initial_world))
    = ["-1m"; "-1m"] /\
  Timedelta.step_of (-500000)%Z = "0m" /\
  (str_int (Qfloor (Timedelta.total_seconds (-500000)%Z / inject_Z 60)) ++ "m")%string
    = "-1m".
Proof. repeat split. Qed.

Lemma step_parameter_witness :
  (0 <= Timedelta.of_seconds 45)%Z /\
  Timedelta.representable (Timedelta.of_seconds 45) /\
  (Timedelta.of_seconds 45 < Timedelta.of_minutes 1)%Z /\
  Forall (fun r => step r = "0m")
    (range_queries
       (new_events
          (gather_data Sample.now Sample.backend Sample.Decimal Sample.self
             Sample.workload CPU (Timedelta.of_days 30) (Timedelta.of_seconds 45)
             initial_world)
          initial_world)).
Proof.
  assert (H0 : (0 <= Timedelta.of_seconds 45)%Z) by discriminate.
  assert (Hr : Timedelta.representable (Timedelta.of_seconds 45)) by reflexivity.
  assert (H1 : (Timedelta.of_seconds 45 < Timedelta.of_minutes 1)%Z) by reflexivity.
  repeat split; try assumption.
  exact (proj1 (proj2 (step_parameter Sample.now Sample.backend Sample.decimal
                         Sample.Decimal Sample.ApiClient Sample.self Sample.workload CPU
                         (Timedelta.of_days 30) (Timedelta.of_seconds 45)
                         initial_world H0 Hr)) H1).
Defined.



(** C8, the claim as written fails for a status that is not a success and
    is not an error either: on a 304 the check passes and the constructor
    returns the loader. *)
Lemma not_modified_passes :
  Sample.not_modified (liveness_request Sample.connection)
    = inr {| status_code := 304; reason := "Not Modified";
             response_url := "http://localhost:9090/api/v1/query?query=example" |} /\
  result_of Sample.unchanged = inr Sample.self /\
  ~ (exists m c, result_of Sample.unchanged = inl (PrometheusNotFound m c)).
Proof.
  repeat split. intros (m & c & H). discriminate H.
Qed.

Lemma liveness_check_failure_witness :
  liveness_failure Sample.broken Sample.connection
    (HTTPError
       "500 Server Error: Internal Server Error for url: http://localhost:9090/api/v1/query?query=example") /\
  result_of
    (__init__ Sample.ApiClient Sample.new_client_from_config Sample.no_url
       Sample.update_params_for_auth Sample.broken Sample.configured None
       initial_world)
    = inl (PrometheusNotFound
             (liveness_message Sample.connection
                (HTTPError
                   "500 Server Error: Internal Server Error for url: http://localhost:9090/api/v1/query?query=example"))
             (Some (HTTPError
                      "500 Server Error: Internal Server Error for url: http://localhost:9090/api/v1/query?query=example"))).
Proof.
  assert (Hf : liveness_failure Sample.broken Sample.connection
                 (HTTPError
                    "500 Server Error: Internal Server Error for url: http://localhost:9090/api/v1/query?query=example")).
  { exact (status_not_ok Sample.broken Sample.connection
             {| status_code := 500; reason := "Internal Server Error";
                response_url := "http://localhost:9090/api/v1/query?query=example" |}
             eq_refl eq_refl). }
  split; [exact Hf|].
  apply (proj1 (proj2 (liveness_check_failure Sample.ApiClient
                         Sample.new_client_from_config Sample.no_url
                         Sample.update_params_for_auth Sample.broken))
           Sample.configured None None initial_world "http://localhost:9090"
           [("Authorization", "Basic dXNlcjpwYXNz")]).
  - reflexivity.
  - reflexivity.
  - reflexivity.
  - reflexivity.
  - exact Hf.
Defined.

Lemma failing_query_aborts_witness :
  In {| finished_at := 5; outcome := inl (ReadTimeout "Read timed out.") |}
    (batch Sample.now Sample.flaky Sample.self Sample.workload CPU
       (Timedelta.of_days 30) Timedelta.default_timeframe initial_world) /\
  result_of
    (gather_data Sample.now Sample.flaky Sample.Decimal Sample.self Sample.workload CPU
       (Timedelta.of_days 30) Timedelta.default_timeframe initial_world)
    = inl (ReadTimeout "Read timed out.").
Proof.
  assert (Hin : In {| finished_at := 5; outcome := inl (ReadTimeout "Read timed out.") |}
                  (batch Sample.now Sample.flaky Sample.self Sample.workload CPU
                     (Timedelta.of_days 30) Timedelta.default_timeframe initial_world)).
  { right. left. reflexivity. }
  split; [exact Hin|].
  destruct (failing_query_aborts Sample.now Sample.flaky Sample.decimal Sample.Decimal
              Sample.ApiClient Sample.self Sample.workload CPU
              (Timedelta.of_days 30) Timedelta.default_timeframe initial_world
              _ (ReadTimeout "Read timed out.") eq_refl Hin eq_refl)
    as (c' & e' & _ & _ & _ & _ & Hsole).
  apply Hsole. intros c2 e2 [<-|[<-|[]]] Ho; simpl in Ho.
  - discriminate.
  - now injection Ho as <-.
Defined.

(** C10, the claim as written fails when no URL is resolved: with nothing
    configured and nothing discovered the constructor raises
    [PrometheusNotFound] at the URL check, which comes first; it never
    reaches the lookup on the absent API client. *)
Lemma url_check_precedes_auth :
  truthy (prometheus_auth_header Sample.bare) = false /\
  inside_cluster Sample.bare = false /\
  result_of Sample.construction =
    inl (PrometheusNotFound
           "Prometheus url could not be found while scanning in default cluster" None) /\
  ~ (exists m, result_of Sample.construction = inl (AttributeError m)).
Proof.
  repeat split. intros (m & H). discriminate H.
Qed.

Lemma missing_api_client_witness :
  truthy (prometheus_auth_header Sample.bare) = false /\
  inside_cluster Sample.bare = false /\
  truthy (py_or (prometheus_url Sample.bare) (Sample.discovered selectors None)) = true /\
  result_of
    (__init__ Sample.ApiClient Sample.new_client_from_config Sample.discovered
       Sample.update_params_for_auth Sample.healthy Sample.bare None initial_world)
    = inl (AttributeError "'NoneType' object has no attribute 'update_params_for_auth'").
Proof.
  split; [reflexivity|split; [reflexivity|split; [reflexivity|]]].
  apply (proj1 (missing_api_client Sample.ApiClient Sample.new_client_from_config
                  Sample.discovered Sample.update_params_for_auth Sample.healthy
                  Sample.bare initial_world eq_refl eq_refl eq_refl)).
Defined.

(** ** Scenarios of the further properties *)

Lemma auth_header_precedence_witness :
  result_of
    (__init__ Sample.ApiClient Sample.new_client_from_config Sample.discovered
       Sample.update_params_for_auth Sample.healthy Sample.configured None
       initial_world)
    = inr Sample.self /\
  headers (prometheus Sample.self) = [("Authorization", "Basic dXNlcjpwYXNz")].
Proof.
  split; [reflexivity|].
  apply (proj1 (auth_header_precedence Sample.ApiClient Sample.new_client_from_config
                  Sample.discovered Sample.update_params_for_auth Sample.healthy
                  Sample.configured None initial_world Sample.self eq_refl)
           "Basic dXNlcjpwYXNz"); reflexivity.
Defined.

Lemma other_errors_propagate_witness :
  caught (ReadTimeout "Read timed out. (read timeout=None)") = false /\
  result_of
    (__init__ Sample.ApiClient Sample.new_client_from_config Sample.discovered
       Sample.update_params_for_auth Sample.stalled Sample.configured None
       initial_world)
    = inl (ReadTimeout "Read timed out. (read timeout=None)").
Proof.
  split; [reflexivity|].
  apply (proj2 (other_errors_propagate Sample.ApiClient Sample.new_client_from_config
                  Sample.discovered Sample.update_params_for_auth Sample.stalled)
           Sample.configured None None initial_world "http://localhost:9090"
           [("Authorization", "Basic dXNlcjpwYXNz")]); reflexivity.
Defined.

Lemma effects_of_a_call_witness :
  window_fits Sample.now (Timedelta.of_days 30)
    (clock_reads initial_world) (List.length (pods Sample.workload)) /\
  first_failure
    (batch Sample.now Sample.backend Sample.self Sample.workload CPU
       (Timedelta.of_days 30) Timedelta.default_timeframe initial_world) = None /\
  clock_reads (snd Sample.scenario) = 4%nat /\
  submitted (snd Sample.scenario) = 2%nat.
Proof.
  assert (Hfit : window_fits Sample.now (Timedelta.of_days 30)
                   (clock_reads initial_world) (List.length (pods Sample.workload))).
  { intros [|[|i]] Hi; [split; discriminate | split; discriminate | exfalso].
    simpl in Hi. lia. }
  split; [exact Hfit|split; [reflexivity|]].
  destruct (effects_of_a_call Sample.now Sample.backend Sample.decimal
              Sample.Decimal Sample.ApiClient Sample.self Sample.workload
              CPU (Timedelta.of_days 30) Timedelta.default_timeframe
              initial_world eq_refl Hfit) as [Hreads Hsent].
  split; [exact Hreads|].
  exact (proj1 (Hsent eq_refl)).
Defined.

Lemma query_window_witness :
  (forall k, (Sample.now k <= Sample.now (S k))%Z) /\
  (0 <= Timedelta.of_days 30)%Z /\
  Forall (fun r => (start_time r <= end_time r)%Z /\
                   (Timedelta.of_days 30 <= end_time r - start_time r)%Z)
    (range_queries (new_events Sample.scenario initial_world)).
Proof.
  assert (Hmono : forall k, (Sample.now k <= Sample.now (S k))%Z).
  { intros k. unfold Sample.now. lia. }
  assert (Hp : (0 <= Timedelta.of_days 30)%Z) by discriminate.
  split; [exact Hmono|split; [exact Hp|]].
  exact (query_window Sample.now Sample.backend Sample.decimal Sample.Decimal
           Sample.ApiClient Sample.self Sample.workload CPU (Timedelta.of_days 30)
           Timedelta.default_timeframe initial_world Hmono Hp).
Defined.

Lemma errors_raised_witness :
  window_fits Sample.now (Timedelta.of_days 30)
    (clock_reads initial_world) (List.length (pods Sample.workload)) /\
  result_of
    (gather_data Sample.now Sample.flaky Sample.Decimal Sample.self Sample.workload CPU
       (Timedelta.of_days 30) Timedelta.default_timeframe initial_world)
    = inl (ReadTimeout "Read timed out.") /\
  ((exists shown,
      CPU = Unsupported shown /\
      ReadTimeout "Read timed out." = ValueError ("Unknown resource type: " ++ shown)%string) \/
   (supported CPU = true /\
    exists c,
      In c (batch Sample.now Sample.flaky Sample.self Sample.workload CPU
              (Timedelta.of_days 30) Timedelta.default_timeframe initial_world) /\
      outcome c = inl (ReadTimeout "Read timed out.")) \/
   (supported CPU = true /\
    first_failure
      (batch Sample.now Sample.flaky Sample.self Sample.workload CPU
         (Timedelta.of_days 30) Timedelta.default_timeframe initial_world) = None /\
    ReadTimeout "Read timed out." = conversion_error)).
Proof.
  assert (Hfit : window_fits Sample.now (Timedelta.of_days 30)
                   (clock_reads initial_world) (List.length (pods Sample.workload))).
  { intros [|[|i]] Hi; [split; discriminate | split; discriminate | exfalso].
    simpl in Hi. lia. }
  split; [exact Hfit|split; [reflexivity|]].
  apply (errors_raised Sample.now Sample.flaky Sample.decimal Sample.Decimal
           Sample.ApiClient Sample.self Sample.workload CPU (Timedelta.of_days 30)
           Timedelta.default_timeframe initial_world _ Hfit). reflexivity.
Defined.

Lemma refused_value_aborts_witness :
  Sample.Decimal "n/a" = None /\
  result_of
    (gather_data Sample.now Sample.garbled Sample.Decimal Sample.self Sample.workload CPU
       (Timedelta.of_days 30) Timedelta.default_timeframe initial_world)
    = inl conversion_error.
Proof.
  split; [reflexivity|].
  apply (refused_value_aborts Sample.now Sample.garbled Sample.decimal Sample.Decimal
           Sample.ApiClient Sample.self Sample.workload CPU (Timedelta.of_days 30)
           Timedelta.default_timeframe initial_world 1%nat "p2"
           {| metric := []; values := [(Sample.t1, "0.5"); (Sample.t2, "n/a")] |} []
           Sample.t2 "n/a").
  - reflexivity.
  - reflexivity.
  - reflexivity.
  - intros [|[|j]] Hj; [inversion Hj | exfalso; lia | destruct j; discriminate].
  - reflexivity.
  - right. left. reflexivity.
  - reflexivity.
Defined.

Lemma samples_alone_decide_witness :
  Forall2 same_samples
    (batch Sample.now Sample.backend Sample.self Sample.workload CPU
       (Timedelta.of_days 30) Timedelta.default_timeframe initial_world)
    (batch Sample.now Sample.reordered Sample.self Sample.workload CPU
       (Timedelta.of_days 30) Timedelta.default_timeframe initial_world) /\
  result_of Sample.scenario =
  result_of
    (gather_data Sample.now Sample.reordered Sample.Decimal Sample.self Sample.workload
       CPU (Timedelta.of_days 30) Timedelta.default_timeframe initial_world).
Proof.
  assert (H : Forall2 same_samples
                (batch Sample.now Sample.backend Sample.self Sample.workload CPU
                   (Timedelta.of_days 30) Timedelta.default_timeframe initial_world)
                (batch Sample.now Sample.reordered Sample.self Sample.workload CPU
                   (Timedelta.of_days 30) Timedelta.default_timeframe initial_world)).
  { constructor; [|constructor; [|constructor]].
    - eexists _, _. repeat split.
    - eexists _, _. repeat split. }
  split; [exact H|].
  exact (samples_alone_decide Sample.now Sample.backend Sample.decimal Sample.Decimal
           Sample.ApiClient Sample.reordered Sample.self Sample.workload CPU
           (Timedelta.of_days 30) Timedelta.default_timeframe initial_world eq_refl H).
Defined.

Lemma all_pods_present_witness :
  NoDup (pods Sample.workload) /\
  keys [("p1", [Sample.half]); ("p2", [Sample.half])] = pods Sample.workload.
Proof.
  assert (Hnd : NoDup (pods Sample.workload)).
  { constructor; [|constructor; [|constructor]].
    - intros [H|[]]. discriminate.
    - intros []. }
  split; [exact Hnd|].
  apply (all_pods_present Sample.now Sample.steady Sample.decimal Sample.Decimal
           Sample.ApiClient Sample.self Sample.workload CPU (Timedelta.of_days 30)
           Timedelta.default_timeframe initial_world
           [("p1", [Sample.half]); ("p2", [Sample.half])]).
  - reflexivity.
  - exact Hnd.
  - intros c [<-|[<-|[]]]; discriminate.
Defined.

Lemma failed_query_converts_nothing_witness :
  In {| finished_at := 5; outcome := inl (ReadTimeout "Read timed out.") |}
    (batch Sample.now Sample.flaky Sample.self Sample.workload CPU
       (Timedelta.of_days 30) Timedelta.default_timeframe initial_world) /\
  Forall (fun ev => is_conversion ev = false)
    (new_events
       (gather_data Sample.now Sample.flaky Sample.Decimal Sample.self Sample.workload
          CPU (Timedelta.of_days 30) Timedelta.default_timeframe initial_world)
       initial_world).
Proof.
  assert (Hin : In {| finished_at := 5; outcome := inl (ReadTimeout "Read timed out.") |}
                  (batch Sample.now Sample.flaky Sample.self Sample.workload CPU
                     (Timedelta.of_days 30) Timedelta.default_timeframe initial_world)).
  { right. left. reflexivity. }
  split; [exact Hin|].
  exact (failed_query_converts_nothing Sample.now Sample.flaky Sample.decimal
           Sample.Decimal Sample.ApiClient Sample.self Sample.workload CPU
           (Timedelta.of_days 30) Timedelta.default_timeframe initial_world
           _ (ReadTimeout "Read timed out.") eq_refl Hin eq_refl).
Defined.

Lemma step_whole_minutes_witness :
  (0 <= 30)%Z /\ (0 <= 59999999 < Timedelta.of_minutes 1)%Z /\
  Timedelta.representable (Timedelta.of_minutes 30 + 59999999)%Z /\
  Timedelta.step_of (Timedelta.of_minutes 30 + 59999999)%Z = "30m".
Proof.
  assert (Hm : (0 <= 30)%Z) by discriminate.
  assert (Hr : (0 <= 59999999 < Timedelta.of_minutes 1)%Z) by (split; [discriminate|reflexivity]).
  assert (Hb : Timedelta.representable (Timedelta.of_minutes 30 + 59999999)%Z) by reflexivity.
  split; [exact Hm|split; [exact Hr|split; [exact Hb|]]].
  exact (step_whole_minutes 30 59999999 Hm Hr Hb).
Defined.

